(** * IronPLC documentation build: problem-code registry and version loader

    A shallow embedding of [docs/extensions/ironplc_problemcode.py] and of
    the version block of [docs/conf.py], with the properties of the
    registry, of the [problem-summary] directive and of the version loader.

    In the extension, Python strings are modelled as Rocq strings
    (sequences of bytes, the UTF-8 encoding of the text): every operation
    of the extension compares whole strings or cuts at the ASCII character
    ['.'], and both agree on the UTF-8 bytes and on the code points.  In
    the version loader, which decodes, a text is the list of its code
    points.  Python sets and dicts are stdpp's [gset] and [gmap]. *)

From Stdlib Require Import ZArith Ascii String List Lia.
From Stdlib Require Import Init.Byte.
From Stdlib Require Strings.Byte.
From stdpp Require Import base option list strings gmap.

Local Open Scope string_scope.
Local Open Scope list_scope.

(** * The problem-code extension *)

(** ** Exceptions and results *)

(** The exceptions the two files can raise.  [exit(1)] of [sys] raises
    [SystemExit] with the status as its code. *)
Inductive exn : Type :=
  | FileNotFoundError (path : string)
  | StopIteration
  | IndexError
  | KeyError (key : string)
  | SystemExit (code : Z)
  | UnicodeDecodeError.

Inductive result (A : Type) : Type :=
  | Ok (a : A)
  | Raise (e : exn).
Arguments Ok {A} a.
Arguments Raise {A} e.

#[global] Instance result_ret : MRet result := λ A a, Ok a.
#[global] Instance result_bind : MBind result := λ A B f m,
  match m with
  | Ok a => f a
  | Raise e => Raise e
  end.
#[global] Instance result_fmap : FMap result := λ A B f m,
  match m with
  | Ok a => Ok (f a)
  | Raise e => Raise e
  end.

(** The status the interpreter hands to the operating system when the
    exception reaches the top level: the code of a [SystemExit], [1] for
    every other exception (after the traceback). *)
Definition exit_status (e : exn) : Z :=
  match e with
  | SystemExit code => code
  | _ => 1%Z
  end.

(** [l[i]] for a list and a non-negative index. *)
Definition getitem {A} (l : list A) (i : nat) : result A :=
  match l !! i with
  | Some x => Ok x
  | None => Raise IndexError
  end.

(** ** Module state *)

Record ProblemCode : Type := mkProblemCode { message : string }.

(** The mutable state the module body and the directive share: the
    module-level dict [problem_infos], and the text written so far to the
    standard output of the process. *)
Record state : Type := mkState {
  problem_infos : gmap string ProblemCode;
  stdout : string
}.

Definition M (A : Type) : Type := state → result A * state.

#[global] Instance M_ret : MRet M := λ A a s, (Ok a, s).
#[global] Instance M_bind : MBind M := λ A B f m s,
  match m s with
  | (Ok a, s') => f a s'
  | (Raise e, s') => (Raise e, s')
  end.

Definition lift {A} (r : result A) : M A := λ s, (r, s).
Definition raise {A} (e : exn) : M A := λ s, (Raise e, s).

Definition newline : string := String "010" "".

(** [print(text)]: the text and a newline go to the standard output. *)
Definition print (text : string) : M unit := λ s,
  (Ok (), {| problem_infos := problem_infos s;
             stdout := stdout s +:+ text +:+ newline |}).

(** [sys.exit(status)] *)
Definition exit {A} (status : Z) : M A := raise (SystemExit status).

(** [problem_infos = dict()] *)
Definition new_problem_infos : M unit := λ s,
  (Ok (), {| problem_infos := ∅; stdout := stdout s |}).

(** [problem_infos[code] = value] *)
Definition setitem_problem_infos (code : string) (value : ProblemCode) : M unit :=
  λ s, (Ok (), {| problem_infos := <[code := value]> (problem_infos s);
                  stdout := stdout s |}).

(** [problem_infos[code]] *)
Definition getitem_problem_infos (code : string) : M ProblemCode := λ s,
  match problem_infos s !! code with
  | Some info => (Ok info, s)
  | None => (Raise (KeyError code), s)
  end.

(** [for x in l: body(x)] *)
Fixpoint for_each {A} (body : A → M unit) (l : list A) : M unit :=
  match l with
  | [] => mret ()
  | x :: l' => body x ;; for_each body l'
  end.

(** ** The file system the module reads *)

(** What the module sees of the disk: the names [os.listdir] returns for a
    directory, and for a CSV file the rows [csv.reader] yields for it
    (each row a list of fields, the header row first). *)
Record filesystem : Type := mkFilesystem {
  directories : gmap string (list string);
  csv_files : gmap string (list (list string))
}.

(** [os.path.join] of relative, non-empty components on a POSIX system. *)
Fixpoint join (parts : list string) : string :=
  match parts with
  | [] => ""
  | [p] => p
  | p :: rest => p +:+ "/" +:+ join rest
  end.

(** [os.listdir(path)], on a disk where a path is a directory that can
    be listed, or is not there.  Other failures of the operating system
    (a path that is no directory, a directory that may not be read) are
    outside this disk: the properties below take the listing as given,
    or name the error only as the one [listdir] raised. *)
Definition listdir (fs : filesystem) (path : string) : result (list string) :=
  match directories fs !! path with
  | Some names => Ok names
  | None => Raise (FileNotFoundError path)
  end.

(** [csv.reader(open(path))], as the list of the rows it will yield, for
    a catalog that is opened and read to its end without error; a
    catalog that is not there raises when it is opened.  A catalog that
    fails while it is read (bytes that do not decode, a malformed
    quoted field) is outside this disk. *)
Definition open_csv (fs : filesystem) (path : string) : result (list (list string)) :=
  match csv_files fs !! path with
  | Some rows => Ok rows
  | None => Raise (FileNotFoundError path)
  end.

(** [next(it)] on an iterator over [rows]: the first row and the rest. *)
Definition next {A} (rows : list A) : result (A * list A) :=
  match rows with
  | [] => Raise StopIteration
  | r :: rest => Ok (r, rest)
  end.

(** ** Help topics *)

(** [s.split(sep)] for a separator of one character. *)
Fixpoint split (sep : ascii) (s : string) : list string :=
  match s with
  | EmptyString => [""]
  | String c s' =>
      if Ascii.eqb c sep then "" :: split sep s'
      else match split sep s' with
           | [] => [String c ""]
           | field :: fields => String c field :: fields
           end
  end.

(** [[v.split('.')[0] for v in names]] *)
Definition topic_names (names : list string) : result (list string) :=
  mapM (λ v, getitem (split "." v) 0) names.

(** [set([v.split('.')[0] for v in names])] *)
Definition topic_set (names : list string) : result (gset string) :=
  list_to_set <$> topic_names names.

Definition compiler_problems_dir : string := join ["compiler"; "problems"].
Definition vscode_problems_dir : string := join ["vscode"; "problems"].

(** Lines 14 to 16: [help_topics]. *)
Definition load_help_topics (fs : filesystem) : result (gset string) :=
  compiler_names ← listdir fs compiler_problems_dir;
  compiler_help_topics ← topic_set compiler_names;
  extension_names ← listdir fs vscode_problems_dir;
  extension_help_topics ← topic_set extension_names;
  mret (compiler_help_topics ∪ extension_help_topics).

(** ** Loading the catalogs *)

Definition definitions : list string := [
  join [".."; "compiler"; "problems"; "resources"; "problem-codes.csv"];
  join [".."; "integrations"; "vscode"; "resources"; "problem-codes.csv"]
].

(** The body of the inner loop, lines 35 to 39. *)
Definition process_row (help_topics : gset string) (row : list string) : M unit :=
  code ← lift (getitem row 0);
  (if bool_decide (code ∈ help_topics) then mret ()
   else print ("Missing help topic for " +:+ code) ;; exit 1) ;;
  text ← lift (getitem row 2);
  setitem_problem_infos code (mkProblemCode text).

(** The body of the outer loop, lines 29 to 39. *)
Definition process_definition (fs : filesystem) (help_topics : gset string)
    (definition : string) : M unit :=
  problem_codes ← lift (open_csv fs definition);
  '(_, problem_codes) ← lift (next problem_codes);
  for_each (process_row help_topics) problem_codes.

(** The module body up to the class [ProblemSummary]. *)
Definition module_init (fs : filesystem) : M unit :=
  help_topics ← lift (load_help_topics fs);
  new_problem_infos ;;
  for_each (process_definition fs help_topics) definitions.

(** ** The directive *)

(** A docutils node: a [Text] leaf, or an element of some class (its tag
    name), with its raw source and its children. *)
#[local] Set Warnings "-register-all".
Inductive node : Type :=
  | Text (data : string)
  | Element (tagname : string) (rawsource : string) (children : list node).

(** [nodes.TextElement.__init__]: a non-empty [text] becomes a first
    [Text] child. *)
Definition TextElement (tagname rawsource text : string) (children : list node) : node :=
  if bool_decide (text ≠ "")
  then Element tagname rawsource (Text text :: children)
  else Element tagname rawsource children.

Module nodes.
Definition definition_list (rawsource : string) (children : list node) : node :=
  Element "definition_list" rawsource children.
Definition definition_list_item (rawsource : string) (children : list node) : node :=
  Element "definition_list_item" rawsource children.
Definition definition (rawsource : string) (children : list node) : node :=
  Element "definition" rawsource children.
Definition term (rawsource text : string) (children : list node) : node :=
  TextElement "term" rawsource text children.
Definition strong (rawsource text : string) (children : list node) : node :=
  TextElement "strong" rawsource text children.
Definition paragraph (rawsource text : string) (children : list node) : node :=
  TextElement "paragraph" rawsource text children.
End nodes.

Module ProblemSummary.
Definition required_arguments : nat := 1.

Definition make_item (key value : string) : node :=
  nodes.definition_list_item ""
    [nodes.term "" "" [nodes.strong "" key []];
     nodes.definition "" [nodes.paragraph "" value []]].

(** [run(self)], with [self.arguments] as its argument. *)
Definition run (arguments : list string) : M (list node) :=
  code ← lift (getitem arguments 0);
  info ← getitem_problem_infos code;
  let message := message info in
  let items := [make_item "Code" code; make_item "Message" message] in
  mret [nodes.definition_list "" items].
End ProblemSummary.

(** [render(code)]: the directive run with the one argument it requires. *)
Definition render (code : string) : M (list node) := ProblemSummary.run [code].

(** * The version loader of [conf.py] *)

(** Text is a sequence of Unicode code points; the bytes of a file are
    [Byte.byte]s, read as numbers below 256. *)
Definition byte_val (b : byte) : Z := Z.of_N (Byte.to_N b).

Definition between (lo hi x : Z) : bool := ((lo <=? x) && (x <=? hi))%Z.

(** A continuation byte, [10xxxxxx]. *)
Definition continuation (x : Z) : bool := between 0x80 0xBF x.

(** The values the second byte may take after the lead byte [lead] of a
    sequence of three or four bytes: the ranges that leave out the
    overlong forms, the surrogates and the code points above
    [U+10FFFF]. *)
Definition second_byte (lead x : Z) : bool :=
  if (lead =? 0xE0)%Z then between 0xA0 0xBF x
  else if (lead =? 0xED)%Z then between 0x80 0x9F x
  else if (lead =? 0xF0)%Z then between 0x90 0xBF x
  else if (lead =? 0xF4)%Z then between 0x80 0x8F x
  else continuation x.

(** [bytes.decode('utf-8')], with the default strict error handling. *)
Fixpoint decode_utf8 (bs : list byte) : result (list Z) :=
  match bs with
  | [] => Ok []
  | b0 :: bs1 =>
      let x0 := byte_val b0 in
      if (x0 <? 0x80)%Z then cons x0 <$> decode_utf8 bs1
      else if between 0xC2 0xDF x0 then
        match bs1 with
        | b1 :: bs2 =>
            let x1 := byte_val b1 in
            if continuation x1
            then cons ((x0 - 0xC0) * 64 + (x1 - 0x80))%Z <$> decode_utf8 bs2
            else Raise UnicodeDecodeError
        | _ => Raise UnicodeDecodeError
        end
      else if between 0xE0 0xEF x0 then
        match bs1 with
        | b1 :: b2 :: bs3 =>
            let x1 := byte_val b1 in
            let x2 := byte_val b2 in
            if second_byte x0 x1 && continuation x2
            then cons ((x0 - 0xE0) * 4096 + (x1 - 0x80) * 64 + (x2 - 0x80))%Z
                   <$> decode_utf8 bs3
            else Raise UnicodeDecodeError
        | _ => Raise UnicodeDecodeError
        end
      else if between 0xF0 0xF4 x0 then
        match bs1 with
        | b1 :: b2 :: b3 :: bs4 =>
            let x1 := byte_val b1 in
            let x2 := byte_val b2 in
            let x3 := byte_val b3 in
            if second_byte x0 x1 && continuation x2 && continuation x3
            then cons ((x0 - 0xF0) * 262144 + (x1 - 0x80) * 4096
                       + (x2 - 0x80) * 64 + (x3 - 0x80))%Z
                   <$> decode_utf8 bs4
            else Raise UnicodeDecodeError
        | _ => Raise UnicodeDecodeError
        end
      else Raise UnicodeDecodeError
  end.

(** The 16-bit code units of a little-endian byte sequence; a byte left
    over at the end is truncated data. *)
Fixpoint code_units (bs : list byte) : result (list Z) :=
  match bs with
  | [] => Ok []
  | [_] => Raise UnicodeDecodeError
  | lo :: hi :: bs' => cons (byte_val lo + 256 * byte_val hi)%Z <$> code_units bs'
  end.

(** The code points of a sequence of code units: a high surrogate needs
    a low surrogate after it, and a low surrogate cannot come first. *)
Fixpoint from_code_units (units : list Z) : result (list Z) :=
  match units with
  | [] => Ok []
  | u :: units1 =>
      if between 0xD800 0xDBFF u then
        match units1 with
        | u' :: units2 =>
            if between 0xDC00 0xDFFF u'
            then cons (0x10000 + (u - 0xD800) * 1024 + (u' - 0xDC00))%Z
                   <$> from_code_units units2
            else Raise UnicodeDecodeError
        | [] => Raise UnicodeDecodeError
        end
      else if between 0xDC00 0xDFFF u then Raise UnicodeDecodeError
      else cons u <$> from_code_units units1
  end.

(** [bytes.decode('utf-16le')], with the default strict error handling. *)
Definition decode_utf16le (bs : list byte) : result (list Z) :=
  units ← code_units bs; from_code_units units.

(** [str.isspace] on one character: the code points Python holds to be
    whitespace. *)
Definition isspace (c : Z) : bool :=
  between 0x09 0x0D c || between 0x1C 0x20 c
  || (c =? 0x85)%Z || (c =? 0xA0)%Z || (c =? 0x1680)%Z
  || between 0x2000 0x200A c
  || (c =? 0x2028)%Z || (c =? 0x2029)%Z || (c =? 0x202F)%Z
  || (c =? 0x205F)%Z || (c =? 0x3000)%Z.

Fixpoint lstrip (text : list Z) : list Z :=
  match text with
  | [] => []
  | c :: text' => if isspace c then lstrip text' else text
  end.

Definition rstrip (text : list Z) : list Z := reverse (lstrip (reverse text)).

(** [str.strip()] *)
Definition strip (text : list Z) : list Z := rstrip (lstrip text).

Module codecs.
Definition BOM_UTF16_LE : list byte := [xff; xfe]%byte.
End codecs.

(** [bytes.startswith(prefix)] *)
Fixpoint startswith (bs prefix : list byte) {struct prefix} : bool :=
  match prefix, bs with
  | [], _ => true
  | p :: prefix', b :: bs' => Byte.eqb b p && startswith bs' prefix'
  | _ :: _, [] => false
  end.

(** [open(path, "rb").read()], on the binary files of the disk: a file
    that is read, or one that is not there.  Other failures of [open]
    are outside this disk. *)
Definition read_binary (files : gmap string (list byte)) (path : string) :
    result (list byte) :=
  match files !! path with
  | Some bs => Ok bs
  | None => Raise (FileNotFoundError path)
  end.

(** Lines 88 to 97 of [conf.py]: the value of [version]. *)
Definition version (files : gmap string (list byte)) : result (list Z) :=
  encoded_text ← read_binary files "VERSION";
  decoded_text ←
    (if startswith encoded_text codecs.BOM_UTF16_LE then
       let encoded_text := drop (List.length codecs.BOM_UTF16_LE) encoded_text in
       decode_utf16le encoded_text
     else decode_utf8 encoded_text);
  mret (strip decoded_text).

(** * The vocabulary of the properties *)

(** ** File names *)

(** The part of a file name before its first ['.'], the whole name when
    it has none: the name with its extensions stripped. *)
Fixpoint strip_extensions (name : string) : string :=
  match name with
  | EmptyString => ""
  | String c rest =>
      if Ascii.eqb c "." then "" else String c (strip_extensions rest)
  end.

(** The character [c] occurs in [s]. *)
Fixpoint occurs (c : ascii) (s : string) : bool :=
  match s with
  | EmptyString => false
  | String c' s' => Ascii.eqb c' c || occurs c s'
  end.

(** ** Rows and the dict they leave behind *)

(** The three ways the loop body can end on a row: the entry is stored;
    the code has no help topic; a field is missing. *)
Inductive row_outcome : Type :=
  | RowStored (code text : string)
  | RowMissing (code : string)
  | RowMalformed.

Definition classify (T : gset string) (row : list string) : row_outcome :=
  match row !! 0 with
  | None => RowMalformed
  | Some code =>
      if bool_decide (code ∈ T) then
        match row !! 2 with
        | Some text => RowStored code text
        | None => RowMalformed
        end
      else RowMissing code
  end.

Definition stored (T : gset string) (row : list string) : Prop :=
  ∃ code text, row !! 0 = Some code ∧ code ∈ T ∧ row !! 2 = Some text.

(** The dict after the entries of [rows] were written to [m], in order. *)
Definition store (m : gmap string ProblemCode) (row : list string) :
    gmap string ProblemCode :=
  match row !! 0, row !! 2 with
  | Some code, Some text => <[code := mkProblemCode text]> m
  | _, _ => m
  end.

Definition register (rows : list (list string)) (m : gmap string ProblemCode) :
    gmap string ProblemCode :=
  foldl store m rows.

Definition missing_line (code : string) : string :=
  ("Missing help topic for " +:+ code) +:+ newline.

(** ** The two catalogs *)

Definition compiler_catalog : string :=
  "../compiler/problems/resources/problem-codes.csv".
Definition vscode_catalog : string :=
  "../integrations/vscode/resources/problem-codes.csv".

(** The rows of a catalog after its header; none when the file is absent
    or empty. *)
Definition data_rows (fs : filesystem) (path : string) : list (list string) :=
  match csv_files fs !! path with
  | Some (_ :: rows) => rows
  | _ => []
  end.

(** The data rows of the catalogs in the order the module meets them. *)
Definition all_data_rows (fs : filesystem) : list (list string) :=
  data_rows fs compiler_catalog ++ data_rows fs vscode_catalog.

(** The catalog at [path] is there and has its header row. *)
Definition has_header (fs : filesystem) (path : string) : Prop :=
  ∃ header, csv_files fs !! path = Some (header :: data_rows fs path).

Definition fresh (s : state) : state :=
  {| problem_infos := ∅; stdout := stdout s |}.

(** ** Sequences of renders *)

(** The states a sequence of renders goes through end where they began. *)
Definition state_after (codes : list string) (s : state) : state :=
  foldl (λ s' code, (render code s').2) s codes.

(** ** Catalogs the specification assumes *)

(** Both directories can be listed, both catalogs have a header row, and
    every data row has its three fields. *)
Definition well_formed (fs : filesystem) : Prop :=
  is_Some (directories fs !! compiler_problems_dir) ∧
  is_Some (directories fs !! vscode_problems_dir) ∧
  has_header fs compiler_catalog ∧
  has_header fs vscode_catalog ∧
  Forall (λ row : list string, (3 ≤ List.length row)%nat) (all_data_rows fs).

(** Both directories can be listed and both catalogs are read and have
    a header row. *)
Definition readable (fs : filesystem) : Prop :=
  is_Some (directories fs !! compiler_problems_dir) ∧
  is_Some (directories fs !! vscode_problems_dir) ∧
  has_header fs compiler_catalog ∧
  has_header fs vscode_catalog.

(** The text [out] has [code] somewhere in it. *)
Fixpoint mentions (code out : string) : bool :=
  String.prefix code out ||
  match out with
  | EmptyString => false
  | String _ out' => mentions code out'
  end.

(** ** Two claims as they are written *)

(** The claim C2 read row by row: every data row whose code is missing
    has its code in what initialization writes before it exits. *)
Definition names_every_missing_code (fs : filesystem) (s : state) : Prop :=
  ∀ T row code,
    load_help_topics fs = Ok T →
    row ∈ all_data_rows fs → row !! 0 = Some code → code ∉ T →
    ∃ e s' out,
      module_init fs s = (Raise e, s') ∧ exit_status e ≠ 0%Z ∧
      stdout s' = stdout s +:+ out ∧ mentions code out = true.

(** The claim C5 as it is written: an initialization that ends in
    [exit] leaves a registry without entries. *)
Definition no_partial_registry (fs : filesystem) (s : state) : Prop :=
  ∀ n s', module_init fs s = (Raise (SystemExit n), s') → problem_infos s' = ∅.

(** ** Encoders, to state what the loader reads back *)

Definition byte_of (x : Z) : byte := default x00 (Byte.of_N (Z.to_N x)).

(** A Unicode scalar value: a code point that is not a surrogate. *)
Definition scalar (c : Z) : bool :=
  between 0 0xD7FF c || between 0xE000 0x10FFFF c.

(** The UTF-8 encoding of a scalar value. *)
Definition encode_utf8_char (c : Z) : list byte :=
  if (c <? 0x80)%Z then [byte_of c]
  else if (c <? 0x800)%Z then
    [byte_of (0xC0 + c / 64); byte_of (0x80 + c mod 64)]
  else if (c <? 0x10000)%Z then
    [byte_of (0xE0 + c / 4096); byte_of (0x80 + (c / 64) mod 64);
     byte_of (0x80 + c mod 64)]
  else
    [byte_of (0xF0 + c / 262144); byte_of (0x80 + (c / 4096) mod 64);
     byte_of (0x80 + (c / 64) mod 64); byte_of (0x80 + c mod 64)].

Definition encode_utf8 (text : list Z) : list byte :=
  concat (encode_utf8_char <$> text).

(** The two bytes of a code unit, low byte first. *)
Definition unit_bytes (u : Z) : list byte := [byte_of (u mod 256); byte_of (u / 256)].

(** The UTF-16 code units of a scalar value: itself, or a surrogate pair. *)
Definition utf16_units (c : Z) : list Z :=
  if (c <? 0x10000)%Z then [c]
  else [0xD800 + (c - 0x10000) / 1024; 0xDC00 + (c - 0x10000) mod 1024]%Z.

Definition encode_utf16le (text : list Z) : list byte :=
  concat (unit_bytes <$> concat (utf16_units <$> text)).

#[global] Arguments byte_val : simpl never.
#[global] Arguments byte_of : simpl never.

(** ** Example file systems *)

Definition header : list string := ["Code"; "Name"; "Message"].

Definition initial_state : state := {| problem_infos := ∅; stdout := "" |}.

Definition make_fs (compiler_names extension_names : list string)
    (compiler_rows extension_rows : list (list string)) : filesystem :=
  {| directories := <[compiler_problems_dir := compiler_names]>
                      (<[vscode_problems_dir := extension_names]> ∅);
     csv_files := <[compiler_catalog := header :: compiler_rows]>
                    (<[vscode_catalog := header :: extension_rows]> ∅) |}.

(** Two help files and a catalog with a row for each. *)
Definition fs_two_codes : filesystem :=
  make_fs ["E001.rst"; "E002.rst"] []
          [["E001"; "Category"; "Msg1"]; ["E002"; "Category"; "Msg2"]] [].

(** The same, with a third row whose code has no help file. *)
Definition fs_missing_topic : filesystem :=
  make_fs ["E001.rst"; "E002.rst"] []
          [["E001"; "Category"; "Msg1"]; ["E002"; "Category"; "Msg2"];
           ["E099"; "Category"; "Missing"]] [].

(** Two rows whose codes have no help file. *)
Definition fs_two_missing : filesystem :=
  make_fs ["E001.rst"] []
          [["E001"; "Category"; "Msg1"]; ["E098"; "Category"; "First"];
           ["E099"; "Category"; "Second"]] [].

(** The code [E001] in both catalogs, with different messages. *)
Definition fs_both_catalogs : filesystem :=
  make_fs ["E001.rst"] ["E001.rst"]
          [["E001"; "Category"; "From the compiler"]]
          [["E001"; "Category"; "From the extension"]].

(** A file whose name starts with a dot, and a row with an empty code. *)
Definition fs_dot_file : filesystem :=
  make_fs ["E001.en.rst"; ".gitkeep"] []
          [[""; "Category"; "No code"]; ["E001"; "Category"; "Msg1"]] [].

(** * The rest of the two files *)

(** ** The download links of [conf.py] *)

(** The code points of an ASCII literal. *)
Definition code_points (s : string) : list Z :=
  (λ a, Z.of_N (N_of_ascii a)) <$> list_ascii_of_string s.

(** Lines 103 and 104 of [conf.py]: the URL template and the caption of
    the [download_artifact] role, for the loaded [version]. *)
Definition download_artifact (version : list Z) : list Z * list Z :=
  (code_points "https://github.com/ironplc/ironplc/releases/download/v"
     ++ version ++ code_points "/%s",
   code_points "%s").

(** Lines 88 to 104 of [conf.py]: the dict [extlinks]. *)
Definition extlinks (files : gmap string (list byte)) :
    result (gmap string (list Z * list Z)) :=
  version ← version files;
  mret {[ "download_artifact" := download_artifact version ]}.

(** ** More vocabulary *)

(** [sep.join(fields)] for a separator of one character. *)
Fixpoint join_fields (sep : ascii) (fields : list string) : string :=
  match fields with
  | [] => ""
  | field :: rest =>
      match rest with
      | [] => field
      | _ :: _ => field +:+ String sep (join_fields sep rest)
      end
  end.

(** Two runs of rows that agree, row by row, on the code and on the
    message. *)
Definition same_entries (rows rows' : list (list string)) : Prop :=
  Forall2 (λ row row' : list string, row !! 0 = row' !! 0 ∧ row !! 2 = row' !! 2)
          rows rows'.

(** The exceptions the module body can end in on the disk modelled
    here, [exit(1)] apart. *)
Definition load_errors : list exn :=
  [FileNotFoundError compiler_problems_dir;
   FileNotFoundError vscode_problems_dir;
   FileNotFoundError compiler_catalog;
   FileNotFoundError vscode_catalog;
   StopIteration;
   IndexError].

(** The UTF-8 encoding of [U+FEFF], the mark some editors put first. *)
Definition BOM_UTF8 : list byte := [xef; xbb; xbf]%byte.

(** The text with [U+0000] after each of its characters. *)
Definition with_nuls (text : list Z) : list Z :=
  concat ((λ c, [c; 0%Z]) <$> text).

(** * Properties *)

(** ** The result and state monads *)

Lemma bind_Raise {A B} (f : A → M B) (m : M A) s e s' :
  m s = (Raise e, s') → (m ≫= f) s = (Raise e, s').
Proof. intros H. unfold mbind, M_bind. by rewrite H. Qed.

Lemma result_bind_Ok {A B} (f : A → result B) (a : A) : Ok a ≫= f = f a.
Proof. done. Qed.

(** ** File names and help topics *)

Lemma split_head (v : string) :
  ∃ fields, split "." v = strip_extensions v :: fields.
Proof.
  induction v as [|c v [fields IH]]; simpl.
  - by exists [].
  - destruct (Ascii.eqb c "."); [by eexists|].
    rewrite IH. by eexists.
Qed.

Lemma first_field (v : string) :
  getitem (split "." v) 0 = Ok (strip_extensions v).
Proof. destruct (split_head v) as [fields ->]. done. Qed.

Lemma topic_names_spec (names : list string) :
  topic_names names = Ok (strip_extensions <$> names).
Proof.
  unfold topic_names. induction names as [|v names IH]; [done|].
  cbn [mapM]. rewrite first_field. cbn. rewrite IH. done.
Qed.

Lemma topic_set_spec (names : list string) :
  topic_set names = Ok (list_to_set (strip_extensions <$> names)).
Proof. unfold topic_set. by rewrite topic_names_spec. Qed.

Lemma load_help_topics_spec (fs : filesystem) (names1 names2 : list string) :
  directories fs !! compiler_problems_dir = Some names1 →
  directories fs !! vscode_problems_dir = Some names2 →
  load_help_topics fs =
    Ok (list_to_set (strip_extensions <$> names1) ∪
        list_to_set (strip_extensions <$> names2)).
Proof.
  intros H1 H2. unfold load_help_topics, listdir.
  rewrite H1, H2.
  rewrite result_bind_Ok, topic_set_spec, !result_bind_Ok, topic_set_spec.
  reflexivity.
Qed.

Lemma load_help_topics_Ok (fs : filesystem) (T : gset string) :
  load_help_topics fs = Ok T →
  ∃ names1 names2,
    directories fs !! compiler_problems_dir = Some names1 ∧
    directories fs !! vscode_problems_dir = Some names2 ∧
    T = list_to_set (strip_extensions <$> names1) ∪
        list_to_set (strip_extensions <$> names2).
Proof.
  intros H.
  destruct (directories fs !! compiler_problems_dir) as [names1|] eqn:H1;
    [|by unfold load_help_topics, listdir in H; rewrite H1 in H].
  destruct (directories fs !! vscode_problems_dir) as [names2|] eqn:H2.
  - rewrite (load_help_topics_spec fs names1 names2 H1 H2) in H.
    exists names1, names2. by inversion H.
  - unfold load_help_topics, listdir in H. rewrite H1, H2 in H.
    by rewrite result_bind_Ok, topic_set_spec in H.
Qed.

Lemma strip_extensions_prefix (v : string) :
  ∃ rest, v = strip_extensions v +:+ rest ∧
          occurs "." (strip_extensions v) = false ∧
          (rest = "" ∨ ∃ rest', rest = String "." rest').
Proof.
  induction v as [|c v (rest & IH & Hno & Hrest)]; simpl.
  - exists "". auto.
  - destruct (Ascii.eqb c ".") eqn:Hc.
    + apply Ascii.eqb_eq in Hc as ->. exists (String "." v). eauto.
    + exists rest. simpl. rewrite Hc, Hno.
      split; [change (String c v = String c (strip_extensions v +:+ rest)); congruence|auto].
Qed.

Lemma strip_extensions_app (base rest : string) :
  occurs "." base = false →
  strip_extensions (base +:+ String "." rest) = base.
Proof.
  induction base as [|c base IH]; simpl; [done|].
  intros [Hc Hb]%orb_false_elim. rewrite Hc. f_equal. auto.
Qed.

(** ** One row, and a run of rows *)

Section rows.
Context (T : gset string).

Lemma classify_stored row :
  stored T row ↔ ∃ code text, classify T row = RowStored code text.
Proof.
  unfold stored, classify. split.
  - intros (code & text & -> & Hin & ->).
    rewrite bool_decide_eq_true_2 by done. eauto.
  - intros (code & text & H).
    destruct (row !! 0) as [c|]; [|done].
    case_bool_decide; [|done].
    destruct (row !! 2) as [t|]; [|done]. eauto.
Qed.

Lemma classify_missing row code :
  classify T row = RowMissing code ↔ row !! 0 = Some code ∧ code ∉ T.
Proof.
  unfold classify. split.
  - destruct (row !! 0) as [c|]; [|done].
    case_bool_decide; [by destruct (row !! 2)|].
    intros [= ->]. done.
  - intros [-> Hnin]. by rewrite bool_decide_eq_false_2.
Qed.

Lemma process_row_spec row s :
  process_row T row s =
    match classify T row with
    | RowStored code text =>
        (Ok (), {| problem_infos := <[code := mkProblemCode text]> (problem_infos s);
                   stdout := stdout s |})
    | RowMissing code =>
        (Raise (SystemExit 1),
         {| problem_infos := problem_infos s;
            stdout := stdout s +:+ missing_line code |})
    | RowMalformed => (Raise IndexError, s)
    end.
Proof.
  unfold process_row, classify, getitem.
  destruct (row !! 0) as [code|]; [|done].
  unfold mbind, M_bind, lift at 1.
  case_bool_decide; [|done].
  unfold mret, M_ret, lift. by destruct (row !! 2).
Qed.

Lemma for_each_app {A} (body : A → M unit) (l1 l2 : list A) s :
  for_each body (l1 ++ l2) s = (for_each body l1 ;; for_each body l2) s.
Proof.
  revert s. induction l1 as [|x l1 IH]; intros s; [done|].
  simpl. unfold mbind, M_bind.
  destruct (body x s) as [[[]|e] s1]; [|done]. apply IH.
Qed.

Lemma register_app rows1 rows2 m :
  register (rows1 ++ rows2) m = register rows2 (register rows1 m).
Proof. apply foldl_app. Qed.

Lemma store_stored row m :
  stored T row →
  ∃ code text, row !! 0 = Some code ∧ row !! 2 = Some text ∧ code ∈ T ∧
               store m row = <[code := mkProblemCode text]> m.
Proof.
  intros (code & text & H0 & Hin & H2). exists code, text.
  unfold store. by rewrite H0, H2.
Qed.

(** A run of rows that are all stored ends normally, with their entries
    written and nothing printed. *)
Lemma for_each_rows_stored rows s :
  Forall (stored T) rows →
  for_each (process_row T) rows s =
    (Ok (), {| problem_infos := register rows (problem_infos s);
               stdout := stdout s |}).
Proof.
  intros H. revert s. induction H as [|row rows Hrow _ IH]; intros s.
  - by destruct s.
  - simpl. unfold mbind, M_bind. rewrite process_row_spec.
    destruct (store_stored row (problem_infos s) Hrow)
      as (code & text & H0 & H2 & Hin & Hst).
    unfold classify. rewrite H0, H2, bool_decide_eq_true_2 by done.
    rewrite IH. simpl. by rewrite Hst.
Qed.

(** A run stops at its first row that is not stored, with what the body
    does on that row after the entries before it were written. *)
Lemma for_each_rows_stop pre row post s :
  Forall (stored T) pre →
  ¬ stored T row →
  for_each (process_row T) (pre ++ row :: post) s =
    match process_row T row {| problem_infos := register pre (problem_infos s);
                               stdout := stdout s |} with
    | (Ok _, s') => (Raise IndexError, s')
    | (Raise e, s') => (Raise e, s')
    end.
Proof.
  intros Hpre Hrow. rewrite for_each_app. unfold mbind, M_bind.
  rewrite (for_each_rows_stored pre s Hpre). simpl. unfold mbind, M_bind.
  rewrite process_row_spec.
  destruct (classify T row) as [code text| |] eqn:Hc; [|done..].
  exfalso. apply Hrow, classify_stored. eauto.
Qed.

#[global] Instance stored_dec row : Decision (stored T row).
Proof.
  destruct (classify T row) as [code text|code|] eqn:Hc.
  - left. apply classify_stored. eauto.
  - right. intros (?&?&?)%classify_stored. congruence.
  - right. intros (?&?&?)%classify_stored. congruence.
Defined.

(** Either every row is stored, or there is a first one that is not. *)
Lemma first_not_stored (rows : list (list string)) :
  Forall (stored T) rows ∨
  ∃ pre row post, rows = pre ++ row :: post ∧ Forall (stored T) pre ∧ ¬ stored T row.
Proof.
  induction rows as [|row rows IH]; [by left|].
  destruct (decide (stored T row)) as [Hrow|Hrow].
  - destruct IH as [IH|(pre & r & post & -> & Hpre & Hr)].
    + left. by constructor.
    + right. exists (row :: pre), r, post. repeat split; [by constructor|done].
  - right. exists [], row, rows. by repeat split.
Qed.

(** What a run of rows can have done when it is over. *)
Lemma for_each_rows_inv rows s res s' :
  for_each (process_row T) rows s = (res, s') →
  (res = Ok () ∧ Forall (stored T) rows ∧
   s' = {| problem_infos := register rows (problem_infos s); stdout := stdout s |})
  ∨ ∃ pre row post,
      rows = pre ++ row :: post ∧ Forall (stored T) pre ∧
      ((∃ code, res = Raise (SystemExit 1) ∧ row !! 0 = Some code ∧ (code ∉ T) ∧
                s' = {| problem_infos := register pre (problem_infos s);
                        stdout := stdout s +:+ missing_line code |})
       ∨ (res = Raise IndexError ∧ classify T row = RowMalformed ∧
          s' = {| problem_infos := register pre (problem_infos s);
                  stdout := stdout s |})).
Proof.
  intros Hrun.
  destruct (first_not_stored rows) as [Hall|(pre & row & post & -> & Hpre & Hrow)].
  - left. rewrite for_each_rows_stored in Hrun by done.
    inversion Hrun. done.
  - right. exists pre, row, post. split; [done|]. split; [done|].
    rewrite for_each_rows_stop in Hrun by done.
    rewrite process_row_spec in Hrun.
    destruct (classify T row) as [code text|code|] eqn:Hc.
    + exfalso. apply Hrow, classify_stored. eauto.
    + left. exists code. apply classify_missing in Hc as [H0 Hnin].
      simpl in Hrun. inversion Hrun. done.
    + right. inversion Hrun. done.
Qed.

End rows.

(** ** The two catalogs *)

Lemma definitions_eq : definitions = [compiler_catalog; vscode_catalog].
Proof. reflexivity. Qed.

Lemma has_header_intro fs path header rows :
  csv_files fs !! path = Some (header :: rows) →
  has_header fs path ∧ data_rows fs path = rows.
Proof.
  intros H. unfold has_header, data_rows. rewrite H. eauto.
Qed.

Lemma process_definition_spec fs T path s :
  process_definition fs T path s =
    match csv_files fs !! path with
    | None => (Raise (FileNotFoundError path), s)
    | Some [] => (Raise StopIteration, s)
    | Some (_ :: rows) => for_each (process_row T) rows s
    end.
Proof.
  unfold process_definition, open_csv.
  destruct (csv_files fs !! path) as [[|header rows]|]; done.
Qed.

Lemma module_init_spec fs s :
  module_init fs s =
    match load_help_topics fs with
    | Raise e => (Raise e, s)
    | Ok T =>
        match process_definition fs T compiler_catalog (fresh s) with
        | (Ok _, s1) =>
            match process_definition fs T vscode_catalog s1 with
            | (Ok _, s2) => (Ok (), s2)
            | (Raise e, s2) => (Raise e, s2)
            end
        | (Raise e, s1) => (Raise e, s1)
        end
    end.
Proof.
  unfold module_init. rewrite definitions_eq.
  destruct (load_help_topics fs) as [T|e]; [|done].
  cbn [for_each]. unfold mbind, M_bind, lift, new_problem_infos, fresh.
  destruct (process_definition fs T compiler_catalog _) as [[[]|e] s1]; [|done].
  destruct (process_definition fs T vscode_catalog s1) as [[[]|e] s2]; done.
Qed.

(** When the help topics load and both catalogs have their header, the
    module body is one run over all the data rows. *)
Lemma module_init_run fs T s :
  load_help_topics fs = Ok T →
  has_header fs compiler_catalog →
  has_header fs vscode_catalog →
  module_init fs s = for_each (process_row T) (all_data_rows fs) (fresh s).
Proof.
  intros HT [h1 H1] [h2 H2]. rewrite module_init_spec, HT.
  rewrite process_definition_spec, H1.
  unfold all_data_rows. rewrite for_each_app. unfold mbind, M_bind.
  destruct (for_each _ (data_rows fs compiler_catalog) _) as [[[]|e] s1]; [|done].
  rewrite process_definition_spec, H2.
  by destruct (for_each _ (data_rows fs vscode_catalog) _) as [[[]|e] s2].
Qed.

(** A successful initialization: both catalogs were read, every data row
    was stored, nothing was printed. *)
Lemma module_init_Ok_inv fs s u s' :
  module_init fs s = (Ok u, s') →
  ∃ T, load_help_topics fs = Ok T ∧
       has_header fs compiler_catalog ∧ has_header fs vscode_catalog ∧
       Forall (stored T) (all_data_rows fs) ∧
       s' = {| problem_infos := register (all_data_rows fs) ∅;
               stdout := stdout s |}.
Proof.
  intros Hrun. rewrite module_init_spec in Hrun.
  destruct (load_help_topics fs) as [T|e] eqn:HT; [|done].
  exists T. split; [done|].
  rewrite process_definition_spec in Hrun.
  destruct (csv_files fs !! compiler_catalog) as [[|h1 rows1]|] eqn:H1; [done| |done].
  destruct (for_each _ rows1 _) as [[[]|e] s1] eqn:Hrun1; [|done].
  rewrite process_definition_spec in Hrun.
  destruct (csv_files fs !! vscode_catalog) as [[|h2 rows2]|] eqn:H2; [done| |done].
  destruct (for_each _ rows2 _) as [[[]|e] s2] eqn:Hrun2; [|done].
  apply has_header_intro in H1 as [Hh1 Hd1], H2 as [Hh2 Hd2].
  apply for_each_rows_inv in Hrun1
    as [(_ & Hall1 & ->)|(? & ? & ? & _ & _ & [(? & ? & _)|(? & _)])]; [|done..].
  apply for_each_rows_inv in Hrun2
    as [(_ & Hall2 & ->)|(? & ? & ? & _ & _ & [(? & ? & _)|(? & _)])]; [|done..].
  unfold all_data_rows. rewrite Hd1, Hd2, register_app.
  repeat split; [done..|by apply Forall_app|]. by inversion Hrun.
Qed.

Lemma load_help_topics_Raise fs e :
  load_help_topics fs = Raise e → ∃ path, e = FileNotFoundError path.
Proof.
  intros H. unfold load_help_topics, listdir in H.
  destruct (directories fs !! compiler_problems_dir) as [names1|];
    [|inversion H; eauto].
  rewrite result_bind_Ok, topic_set_spec, result_bind_Ok in H.
  destruct (directories fs !! vscode_problems_dir) as [names2|];
    [|inversion H; eauto].
  by rewrite result_bind_Ok, topic_set_spec in H.
Qed.

(** An initialization that ended in [exit(1)]: it stopped at the first
    data row whose code has no help topic, with the entries of the rows
    before it written and one line printed. *)
Lemma module_init_exit_inv fs s n s' :
  module_init fs s = (Raise (SystemExit n), s') →
  n = 1%Z ∧
  ∃ T pre row post code,
    load_help_topics fs = Ok T ∧
    all_data_rows fs = pre ++ row :: post ∧
    Forall (stored T) pre ∧ row !! 0 = Some code ∧ (code ∉ T) ∧
    s' = {| problem_infos := register pre ∅;
            stdout := stdout s +:+ missing_line code |}.
Proof.
  intros Hrun. rewrite module_init_spec in Hrun.
  destruct (load_help_topics fs) as [T|e] eqn:HT.
  2:{ apply load_help_topics_Raise in HT as [path ->]. done. }
  rewrite process_definition_spec in Hrun.
  destruct (csv_files fs !! compiler_catalog) as [[|h1 rows1]|] eqn:H1; [done| |done].
  apply has_header_intro in H1 as [Hh1 Hd1].
  destruct (for_each _ rows1 _) as [[[]|e] s1] eqn:Hrun1.
  - apply for_each_rows_inv in Hrun1
      as [(_ & Hall1 & ->)|(? & ? & ? & _ & _ & [(? & ? & _)|(? & _)])]; [|done..].
    rewrite process_definition_spec in Hrun.
    destruct (csv_files fs !! vscode_catalog) as [[|h2 rows2]|] eqn:H2; [done| |done].
    apply has_header_intro in H2 as [Hh2 Hd2].
    destruct (for_each _ rows2 _) as [[[]|e] s2] eqn:Hrun2; [done|].
    apply for_each_rows_inv in Hrun2
      as [(? & _)|(pre & row & post & -> & Hpre & [(code & [= ->] & H0 & Hnin & ->)|([= ->] & _)])];
      [done| |done].
    inversion Hrun; subst n s'. split; [done|].
    exists T, (rows1 ++ pre), row, post, code.
    unfold all_data_rows. rewrite Hd1, Hd2, register_app, <-(assoc_L (++)).
    repeat split; [by apply Forall_app|done..].
  - apply for_each_rows_inv in Hrun1
      as [(? & _)|(pre & row & post & -> & Hpre & [(code & [= ->] & H0 & Hnin & ->)|([= ->] & _)])];
      [done| |done].
    inversion Hrun; subst n s'. split; [done|].
    exists T, pre, row, (post ++ data_rows fs vscode_catalog), code.
    unfold all_data_rows. rewrite Hd1, <-(assoc_L (++)).
    repeat split; done.
Qed.

(** ** The dict the rows leave behind *)

Lemma store_lookup_ne m row c :
  row !! 0 ≠ Some c → store m row !! c = m !! c.
Proof.
  intros Hne. unfold store.
  destruct (row !! 0) as [code|]; [|done].
  destruct (row !! 2) as [text|]; [|done].
  apply lookup_insert_ne. congruence.
Qed.

Lemma store_lookup_eq m row c text :
  row !! 0 = Some c → row !! 2 = Some text →
  store m row !! c = Some (mkProblemCode text).
Proof.
  intros H0 H2. unfold store. rewrite H0, H2. apply lookup_insert_eq.
Qed.

Lemma register_cons row rows m :
  register (row :: rows) m = register rows (store m row).
Proof. done. Qed.

(** Rows with other codes leave the entry of [c] as it was. *)
Lemma register_lookup_other rows m c :
  (∀ r, r ∈ rows → r !! 0 ≠ Some c) →
  register rows m !! c = m !! c.
Proof.
  revert m. induction rows as [|row rows IH]; intros m Hrows; [done|].
  rewrite register_cons, IH.
  - apply store_lookup_ne, Hrows. by left.
  - intros r Hr. apply Hrows. by right.
Qed.

(** The last row with code [c] decides the entry of [c]. *)
Lemma register_lookup_last pre row post m c text :
  row !! 0 = Some c → row !! 2 = Some text →
  (∀ r, r ∈ post → r !! 0 ≠ Some c) →
  register (pre ++ row :: post) m !! c = Some (mkProblemCode text).
Proof.
  intros H0 H2 Hpost.
  rewrite register_app, register_cons, register_lookup_other by done.
  by apply store_lookup_eq.
Qed.

(** The keys after a run of stored rows: the old keys and the codes of
    the rows. *)
Lemma register_is_Some T rows m c :
  Forall (stored T) rows →
  is_Some (register rows m !! c) ↔
  is_Some (m !! c) ∨ ∃ r, r ∈ rows ∧ r !! 0 = Some c.
Proof.
  intros Hall. revert m.
  induction Hall as [|row rows Hrow _ IH]; intros m.
  - simpl. split; [auto|]. intros [H|(r & Hr & _)]; [done|].
    by apply elem_of_nil in Hr.
  - rewrite register_cons, IH.
    destruct Hrow as (code & text & H0 & _ & H2).
    destruct (decide (code = c)) as [->|Hne].
    + rewrite (store_lookup_eq m row c text) by done. split.
      * intros _. right. exists row. split; [by left|done].
      * intros _. left. eauto.
    + rewrite store_lookup_ne by congruence. split.
      * intros [H|(r & Hr & Hc)]; [by left|].
        right. exists r. split; [by right|done].
      * intros [H|(r & Hr & Hc)]; [by left|].
        apply elem_of_cons in Hr as [->|Hr]; [congruence|].
        right. eauto.
Qed.

(** ** Rendering *)

Lemma run_spec (arguments : list string) (s : state) :
  ProblemSummary.run arguments s =
    match arguments !! 0 with
    | None => (Raise IndexError, s)
    | Some code =>
        match problem_infos s !! code with
        | None => (Raise (KeyError code), s)
        | Some info =>
            (Ok [nodes.definition_list ""
                   [ProblemSummary.make_item "Code" code;
                    ProblemSummary.make_item "Message" (message info)]], s)
        end
    end.
Proof.
  unfold ProblemSummary.run, getitem.
  destruct (arguments !! 0) as [code|]; [|done].
  unfold mbind, M_bind, lift, getitem_problem_infos.
  by destruct (problem_infos s !! code).
Qed.

(** A render never changes the state. *)
Lemma render_state (code : string) (s : state) : (render code s).2 = s.
Proof.
  unfold render. rewrite run_spec. simpl.
  by destruct (problem_infos s !! code).
Qed.

Lemma paragraph_text (text : string) :
  text ≠ "" → nodes.paragraph "" text [] = Element "paragraph" "" [Text text].
Proof.
  intros Htext. unfold nodes.paragraph, TextElement.
  by rewrite bool_decide_eq_true_2.
Qed.

Lemma render_registered s code info :
  problem_infos s !! code = Some info → ∃ nodes, render code s = (Ok nodes, s).
Proof.
  intros Hreg. unfold render. rewrite run_spec. simpl. rewrite Hreg. eauto.
Qed.

Lemma state_after_id (codes : list string) (s : state) :
  state_after codes s = s.
Proof.
  unfold state_after. induction codes as [|code codes IH]; [done|].
  simpl. by rewrite render_state.
Qed.

(** Nothing that follows an initialization that raised is run. *)
Lemma no_render_after_abort fs s e s' code :
  module_init fs s = (Raise e, s') →
  (module_init fs ;; render code) s = (Raise e, s').
Proof. apply bind_Raise. Qed.

(** ** The registry after initialization *)

Example init_two_codes :
  (module_init fs_two_codes ;; render "E001") initial_state =
    (Ok [nodes.definition_list ""
           [ProblemSummary.make_item "Code" "E001";
            ProblemSummary.make_item "Message" "Msg1"]],
     {| problem_infos := <["E001" := mkProblemCode "Msg1"]>
                           (<["E002" := mkProblemCode "Msg2"]> ∅);
        stdout := "" |}).
Proof. by vm_compute. Qed.

Example init_missing_topic :
  (module_init fs_missing_topic ;; render "E001") initial_state =
    (Raise (SystemExit 1),
     {| problem_infos := <["E001" := mkProblemCode "Msg1"]>
                           (<["E002" := mkProblemCode "Msg2"]> ∅);
        stdout := "Missing help topic for E099" +:+ newline |}).
Proof. by vm_compute. Qed.

(** A blank line in a catalog is a row without fields: the module ends
    in [IndexError] although every code has its help topic. *)
Example init_blank_row :
  module_init (make_fs ["E001.rst"] [] [["E001"; "Category"; "Msg1"]; []] [])
              initial_state =
    (Raise IndexError,
     {| problem_infos := {["E001" := mkProblemCode "Msg1"]}; stdout := "" |}).
Proof. by vm_compute. Qed.

Lemma elem_of_data_rows fs path rows row :
  path ∈ definitions → csv_files fs !! path = Some rows → row ∈ drop 1 rows →
  row ∈ all_data_rows fs.
Proof.
  intros Hpath Hrows Hrow. unfold all_data_rows. apply elem_of_app.
  rewrite definitions_eq in Hpath.
  apply elem_of_cons in Hpath as [->|Hpath];
    [left|right; apply list_elem_of_singleton in Hpath as ->];
    unfold data_rows; rewrite Hrows; by destruct rows.
Qed.

(** C1: when initialization completes, the code of every data row of
    every configured catalog is the extension-stripped name of a file of
    one of the two scanned directories, hence a member of the set of
    documented topics, and the code has its entry in the registry. *)
Theorem C1_catalog_codes_documented fs s s' :
  module_init fs s = (Ok (), s') →
  ∃ T names1 names2,
    load_help_topics fs = Ok T ∧
    directories fs !! compiler_problems_dir = Some names1 ∧
    directories fs !! vscode_problems_dir = Some names2 ∧
    ∀ path rows row,
      path ∈ definitions → csv_files fs !! path = Some rows → row ∈ drop 1 rows →
      ∃ code,
        row !! 0 = Some code ∧ code ∈ T ∧
        (∃ name, name ∈ names1 ++ names2 ∧ code = strip_extensions name) ∧
        is_Some (problem_infos s' !! code).
Proof.
  intros (T & HT & _ & _ & Hall & ->)%module_init_Ok_inv.
  destruct (load_help_topics_Ok fs T HT) as (names1 & names2 & H1 & H2 & HTeq).
  exists T, names1, names2. repeat split; [done..|].
  intros path rows row Hpath Hrows Hrow.
  pose proof (elem_of_data_rows fs path rows row Hpath Hrows Hrow) as Hin.
  rewrite Forall_forall in Hall.
  destruct (Hall row Hin) as (code & text & H0 & HinT & Htext).
  exists code. repeat split; [done..| |].
  - rewrite HTeq in HinT.
    apply elem_of_union in HinT as [Hc|Hc];
      apply elem_of_list_to_set, list_elem_of_fmap in Hc as (name & -> & Hname);
      exists name; (split; [|done]); apply elem_of_app; auto.
  - simpl. apply (register_is_Some T); [by apply Forall_forall|].
    right. eauto.
Qed.

Lemma C1_witness :
  ∃ code,
    ["E002"; "Category"; "Msg2"] !! 0 = Some code ∧
    is_Some (problem_infos (module_init fs_two_codes initial_state).2 !! code).
Proof.
  destruct (C1_catalog_codes_documented fs_two_codes initial_state
              (module_init fs_two_codes initial_state).2)
    as (T & names1 & names2 & _ & _ & _ & H); [by vm_compute|].
  destruct (H compiler_catalog
              (header :: [["E001"; "Category"; "Msg1"]; ["E002"; "Category"; "Msg2"]])
              ["E002"; "Category"; "Msg2"])
    as (code & H0 & _ & _ & Hreg).
  - rewrite definitions_eq. by left.
  - by vm_compute.
  - simpl. right. by left.
  - exists code. by split.
Defined.

(** C3: after a successful initialization, a code that has rows in the
    compiler catalog and in the vscode catalog carries the message of its
    last row of the vscode catalog, the catalog read second, whatever the
    compiler catalog said; nothing is printed about the overwritten
    entry. *)
Theorem C3_last_catalog_wins fs s s' code compiler_row pre extension_row post :
  module_init fs s = (Ok (), s') →
  compiler_row ∈ data_rows fs compiler_catalog →
  compiler_row !! 0 = Some code →
  data_rows fs vscode_catalog = pre ++ extension_row :: post →
  extension_row !! 0 = Some code →
  (∀ row, row ∈ post → row !! 0 ≠ Some code) →
  definitions = [compiler_catalog; vscode_catalog] ∧
  ∃ text,
    extension_row !! 2 = Some text ∧
    problem_infos s' !! code = Some (mkProblemCode text) ∧
    stdout s' = stdout s.
Proof.
  intros (T & HT & _ & _ & Hall & ->)%module_init_Ok_inv _ _ Hrows H0 Hpost.
  split; [done|].
  unfold all_data_rows in *. rewrite Hrows in *.
  assert (stored T extension_row) as (code' & text & H0' & _ & H2).
  { rewrite Forall_forall in Hall. apply Hall.
    apply elem_of_app. right. apply elem_of_app. right. by left. }
  exists text. split; [done|]. split; [|done]. simpl.
  rewrite (assoc_L (++)). by apply register_lookup_last.
Qed.

Lemma C3_witness :
  problem_infos (module_init fs_both_catalogs initial_state).2 !! "E001"
  = Some (mkProblemCode "From the extension").
Proof.
  destruct (C3_last_catalog_wins fs_both_catalogs initial_state
              (module_init fs_both_catalogs initial_state).2 "E001"
              ["E001"; "Category"; "From the compiler"]
              [] ["E001"; "Category"; "From the extension"] [])
    as (_ & text & Htext & Hreg & _).
  - by vm_compute.
  - vm_compute. by left.
  - done.
  - by vm_compute.
  - done.
  - intros row Hrow. by apply elem_of_nil in Hrow.
  - simpl in Htext. injection Htext as <-. exact Hreg.
Defined.

(** ** Initialization that stops at a missing help topic *)

Lemma module_init_missing fs T s pre row post code :
  load_help_topics fs = Ok T →
  has_header fs compiler_catalog → has_header fs vscode_catalog →
  all_data_rows fs = pre ++ row :: post →
  Forall (stored T) pre → row !! 0 = Some code → code ∉ T →
  module_init fs s =
    (Raise (SystemExit 1),
     {| problem_infos := register pre ∅;
        stdout := stdout s +:+ missing_line code |}).
Proof.
  intros HT Hh1 Hh2 Hrows Hpre H0 Hnin.
  rewrite (module_init_run fs T s HT Hh1 Hh2), Hrows.
  assert (classify T row = RowMissing code) as Hc by by apply classify_missing.
  rewrite for_each_rows_stop, process_row_spec, Hc; [done..|].
  intros (c & t & Hc')%classify_stored. congruence.
Qed.

Lemma row_with_fields T (row : list string) :
  (3 ≤ List.length row)%nat →
  stored T row ∨ ∃ code, row !! 0 = Some code ∧ code ∉ T.
Proof.
  intros Hlen.
  destruct (lookup_lt_is_Some_2 row 0) as [code H0]; [lia|].
  destruct (lookup_lt_is_Some_2 row 2) as [text H2]; [lia|].
  destruct (decide (code ∈ T)); [left|right]; [by exists code, text|eauto].
Qed.

Lemma stored_documented T row code :
  stored T row → row !! 0 = Some code → code ∈ T.
Proof. intros (c & t & H0 & Hin & _) H0'. congruence. Qed.

Lemma prefix_app (code rest : string) : String.prefix code (code +:+ rest) = true.
Proof.
  induction code as [|c code IH]; simpl; [by destruct rest|].
  by destruct (ascii_dec c c).
Qed.

Lemma mentions_here (code rest : string) : mentions code (code +:+ rest) = true.
Proof.
  assert (∀ out, String.prefix code out = true → mentions code out = true) as H.
  { intros [|c out] Hp; cbn [mentions]; by rewrite Hp. }
  apply H, prefix_app.
Qed.

Lemma mentions_app (before code rest : string) :
  mentions code (before +:+ code +:+ rest) = true.
Proof.
  induction before as [|c before IH]; [exact (mentions_here code rest)|].
  change (mentions code (String c (before +:+ code +:+ rest)) = true).
  simpl. rewrite IH. apply orb_true_r.
Qed.

(** C2 fails row by row: with two undocumented codes in the catalog only
    the first is named; the process is gone before the row of [E099] is
    read. *)
Lemma C2_counterexample :
  ¬ names_every_missing_code fs_two_missing initial_state.
Proof.
  intros H.
  destruct (H (list_to_set ["E001"]) ["E099"; "Category"; "Second"] "E099")
    as (e & s' & out & Hrun & _ & Hout & Hmentions).
  - by vm_compute.
  - vm_compute. right. right. by left.
  - done.
  - apply (bool_decide_unpack _). by vm_compute.
  - vm_compute in Hrun. injection Hrun as <- <-.
    vm_compute in Hout. subst out. by vm_compute in Hmentions.
Qed.

(** C2, amended: on a disk whose two directories can be listed and
    whose two catalogs are read and have their header row, a data row
    whose code has no help topic, when every data row before it in
    reading order has a documented code and a third field, makes
    initialization write exactly the one line
    [Missing help topic for <code>] for the code of that row, after
    the entries of the rows before it were stored, and raise
    [SystemExit(1)].  When moreover every data row has at least three
    fields, initialization ends with a non-zero exit status if and only
    if some data row has a code without help topic. *)
Theorem C2_first_missing_code_aborts fs s :
  readable fs →
  ∃ T,
    load_help_topics fs = Ok T ∧
    (∀ pre row post code,
       all_data_rows fs = pre ++ row :: post →
       Forall (stored T) pre →
       row !! 0 = Some code → code ∉ T →
       module_init fs s =
         (Raise (SystemExit 1),
          {| problem_infos := register pre ∅;
             stdout := stdout s +:+ "Missing help topic for " +:+ code +:+ newline |})
       ∧ exit_status (SystemExit 1) ≠ 0%Z
       ∧ mentions code ("Missing help topic for " +:+ code +:+ newline) = true) ∧
    (Forall (λ row : list string, (3 ≤ List.length row)%nat) (all_data_rows fs) →
     ((∃ row code, row ∈ all_data_rows fs ∧ row !! 0 = Some code ∧ code ∉ T)
      ↔ (∃ e s', module_init fs s = (Raise e, s') ∧ exit_status e ≠ 0%Z))).
Proof.
  intros ([names1 H1] & [names2 H2] & Hh1 & Hh2).
  pose proof (load_help_topics_spec fs names1 names2 H1 H2) as HT.
  eexists. split; [exact HT|].
  set (T := list_to_set (strip_extensions <$> names1) ∪
            list_to_set (strip_extensions <$> names2)) in *.
  split.
  { intros pre row post code Hrows Hpre H0 Hnin. split; [|split].
    - rewrite (module_init_missing fs T s pre row post code); [reflexivity|done..].
    - done.
    - apply mentions_app. }
  intros Hlen. rewrite Forall_forall in Hlen. split.
  - intros (row & code & Hin & H0 & Hnin).
    destruct (first_not_stored T (all_data_rows fs))
      as [Hall|(pre & r & post & Hrows & Hpre & Hr)].
    + rewrite Forall_forall in Hall.
      destruct Hnin. eapply stored_documented; eauto.
    + destruct (row_with_fields T r) as [?|(c & Hc0 & Hcnin)]; [|done|].
      { apply Hlen. rewrite Hrows. apply elem_of_app. right. by left. }
      eexists _, _. split; [by eapply module_init_missing|done].
  - intros (e & s' & Hrun & _).
    destruct (first_not_stored T (all_data_rows fs))
      as [Hall|(pre & r & post & Hrows & Hpre & Hr)].
    + rewrite (module_init_run fs T s HT Hh1 Hh2) in Hrun.
      by rewrite for_each_rows_stored in Hrun.
    + destruct (row_with_fields T r) as [?|(c & Hc0 & Hcnin)]; [|done|].
      { apply Hlen. rewrite Hrows. apply elem_of_app. right. by left. }
      exists r, c. split; [|done].
      rewrite Hrows. apply elem_of_app. right. by left.
Qed.

Lemma well_formed_make_fs names1 names2 rows1 rows2 :
  Forall (λ row : list string, (3 ≤ List.length row)%nat) (rows1 ++ rows2) →
  well_formed (make_fs names1 names2 rows1 rows2).
Proof.
  intros Hlen. repeat split.
  - by exists names1.
  - by exists names2.
  - by exists header.
  - by exists header.
  - exact Hlen.
Qed.

Lemma readable_make_fs names1 names2 rows1 rows2 :
  readable (make_fs names1 names2 rows1 rows2).
Proof.
  repeat split; [by exists names1|by exists names2|by exists header..].
Qed.

Lemma C2_witness :
  module_init fs_two_missing initial_state =
    (Raise (SystemExit 1),
     {| problem_infos := register [["E001"; "Category"; "Msg1"]] ∅;
        stdout := "Missing help topic for E098" +:+ newline |}).
Proof.
  destruct (C2_first_missing_code_aborts fs_two_missing initial_state)
    as (T & HT & H & _); [apply readable_make_fs|].
  assert (load_help_topics fs_two_missing = Ok (list_to_set ["E001"])) as HT'
    by by vm_compute.
  rewrite HT' in HT. injection HT as <-.
  destruct (H [["E001"; "Category"; "Msg1"]] ["E098"; "Category"; "First"]
              [["E099"; "Category"; "Second"]] "E098") as [Hrun _].
  - reflexivity.
  - constructor; [|constructor]. exists "E001", "Msg1".
    split; [done|]. split; [|done]. apply (bool_decide_unpack _). by vm_compute.
  - reflexivity.
  - apply (bool_decide_unpack _). by vm_compute.
  - exact Hrun.
Defined.

(** C5 fails as written: the rows read before the row of [E099] are in
    the dict when the module calls [exit]. *)
Lemma C5_counterexample :
  ¬ no_partial_registry fs_missing_topic initial_state.
Proof.
  intros H.
  pose proof (H 1%Z (module_init fs_missing_topic initial_state).2) as Hempty.
  assert (problem_infos (module_init fs_missing_topic initial_state).2 !! "E001"
          = Some (mkProblemCode "Msg1")) as Hreg by by vm_compute.
  rewrite Hempty in Hreg; [done|]. by vm_compute.
Qed.

(** C5, amended: when initialization aborts because the code of a data
    row has no help topic, the dict [problem_infos] holds the entries of
    the data rows read before that row, each of which had a documented
    code and a message, and only those: its keys are their codes, the
    code of the offending row is not among them, and it is empty if and
    only if the offending row is the first data row read.  The abort
    is a [SystemExit] that nothing catches, so what is sequenced after
    the module body, a render of any code, does not run. *)
Theorem C5_registry_at_abort fs s n s' :
  module_init fs s = (Raise (SystemExit n), s') →
  ∃ T pre row post code,
    load_help_topics fs = Ok T ∧
    all_data_rows fs = pre ++ row :: post ∧
    Forall (stored T) pre ∧
    row !! 0 = Some code ∧ (code ∉ T) ∧
    problem_infos s' = register pre ∅ ∧
    (∀ c, is_Some (problem_infos s' !! c) ↔ ∃ r, r ∈ pre ∧ r !! 0 = Some c) ∧
    problem_infos s' !! code = None ∧
    (problem_infos s' = ∅ ↔ pre = []) ∧
    (∀ c, (module_init fs ;; render c) s = (Raise (SystemExit n), s')).
Proof.
  intros Hrun.
  pose proof (λ c, bind_Raise (λ _, render c) (module_init fs) s _ _ Hrun)
    as Hrender.
  apply module_init_exit_inv in Hrun
    as (_ & T & pre & row & post & code & HT & Hrows & Hpre & H0 & Hnin & ->).
  exists T, pre, row, post, code. simpl.
  assert (∀ c, is_Some (register pre ∅ !! c) ↔ ∃ r, r ∈ pre ∧ r !! 0 = Some c)
    as Hkeys.
  { intros c. rewrite (register_is_Some T) by done.
    rewrite lookup_empty. split; [|by right].
    intros [[? [=]]|H]; done. }
  split; [done|]. split; [done|]. split; [done|]. split; [done|].
  split; [done|]. split; [done|]. split; [apply Hkeys|].
  split; [|split; [|exact Hrender]].
  - apply eq_None_not_Some. intros (r & Hr & Hc)%Hkeys.
    rewrite Forall_forall in Hpre.
    destruct Hnin. by eapply stored_documented; eauto.
  - split; [|by intros ->].
    intros Hempty. destruct pre as [|r pre]; [done|].
    apply Forall_cons in Hpre as [(c & text & Hc & _) _].
    assert (is_Some (register (r :: pre) ∅ !! c)) as [info Hinfo]
      by (apply Hkeys; exists r; split; [by left|done]).
    by rewrite Hempty, lookup_empty in Hinfo.
Qed.

Lemma C5_witness :
  problem_infos (module_init fs_missing_topic initial_state).2 !! "E099" = None.
Proof.
  destruct (C5_registry_at_abort fs_missing_topic initial_state 1
              (module_init fs_missing_topic initial_state).2)
    as (T & pre & row & post & code & HT & Hrows & _ & H0 & Hnin & _ & _ & Hnone & _).
  - by vm_compute.
  - assert (load_help_topics fs_missing_topic
            = Ok (list_to_set ["E001"; "E002"])) as HT' by by vm_compute.
    rewrite HT' in HT. injection HT as <-.
    destruct pre as [|r1 [|r2 [|r3 pre]]]; vm_compute in Hrows.
    + injection Hrows as <- _. injection H0 as <-.
      destruct Hnin. apply (bool_decide_unpack _). by vm_compute.
    + injection Hrows as _ <- _. injection H0 as <-.
      destruct Hnin. apply (bool_decide_unpack _). by vm_compute.
    + injection Hrows as _ _ <- _. injection H0 as <-. exact Hnone.
    + injection Hrows as _ _ _ Hnil. by destruct pre.
Defined.

(** ** The directive *)

(** C4: for a code of the registry, the directive returns one definition
    list of exactly two items: the term [Code] with the code itself as
    its definition, then the term [Message] with the registered message
    as its definition, each definition one paragraph made of the string
    (the string is its one [Text] child; an empty string leaves the
    paragraph without child); the state is left as it was. *)
Theorem C4_render_definition_list s code info :
  problem_infos s !! code = Some info →
  render code s =
    (Ok [Element "definition_list" ""
           [Element "definition_list_item" ""
              [Element "term" "" [Element "strong" "" [Text "Code"]];
               Element "definition" "" [nodes.paragraph "" code []]];
            Element "definition_list_item" ""
              [Element "term" "" [Element "strong" "" [Text "Message"]];
               Element "definition" "" [nodes.paragraph "" (message info) []]]]],
     s) ∧
  (∀ text, text ≠ "" →
     nodes.paragraph "" text [] = Element "paragraph" "" [Text text]) ∧
  nodes.paragraph "" "" [] = Element "paragraph" "" [].
Proof.
  intros Hreg. split; [|split; [apply paragraph_text|done]].
  unfold render. rewrite run_spec. simpl. by rewrite Hreg.
Qed.

Lemma C4_witness :
  render "E001" (module_init fs_two_codes initial_state).2 =
    (Ok [Element "definition_list" ""
           [Element "definition_list_item" ""
              [Element "term" "" [Element "strong" "" [Text "Code"]];
               Element "definition" "" [Element "paragraph" "" [Text "E001"]]];
            Element "definition_list_item" ""
              [Element "term" "" [Element "strong" "" [Text "Message"]];
               Element "definition" "" [Element "paragraph" "" [Text "Msg1"]]]]],
     (module_init fs_two_codes initial_state).2).
Proof.
  destruct (C4_render_definition_list
              (module_init fs_two_codes initial_state).2 "E001"
              (mkProblemCode "Msg1")) as [Hrender _].
  - by vm_compute.
  - exact Hrender.
Defined.

(** C6: for a code that is not in the registry the directive raises
    [KeyError] for that code; it returns no nodes and leaves the state as
    it was. *)
Theorem C6_render_missing_key s code :
  problem_infos s !! code = None →
  render code s = (Raise (KeyError code), s).
Proof.
  intros Hreg. unfold render. rewrite run_spec. simpl. by rewrite Hreg.
Qed.

Lemma C6_witness :
  render "E404" (module_init fs_two_codes initial_state).2 =
    (Raise (KeyError "E404"), (module_init fs_two_codes initial_state).2).
Proof.
  apply (C6_render_missing_key (module_init fs_two_codes initial_state).2 "E404").
  by vm_compute.
Defined.

(** C9: for a code of the registry, a render and a later render of the
    same code, with any renders in between, return the same nodes, and
    the state after them is the state before the first. *)
Theorem C9_render_idempotent s code info between :
  problem_infos s !! code = Some info →
  let first := render code s in
  let second := render code (state_after between first.2) in
  (∃ nodes, first.1 = Ok nodes ∧ second.1 = Ok nodes) ∧
  first.2 = s ∧ state_after between first.2 = s ∧ second.2 = s.
Proof.
  intros Hreg first second. subst first second.
  destruct (render_registered s code info Hreg) as [nodes Hnodes].
  rewrite Hnodes. simpl. rewrite state_after_id, Hnodes. simpl.
  split; [by exists nodes|done].
Qed.

Lemma C9_witness :
  (render "E002" (state_after ["E001"; "E404"; "E002"]
                    (render "E002" (module_init fs_two_codes initial_state).2).2)).1
  = (render "E002" (module_init fs_two_codes initial_state).2).1.
Proof.
  destruct (C9_render_idempotent (module_init fs_two_codes initial_state).2
              "E002" (mkProblemCode "Msg2") ["E001"; "E404"; "E002"])
    as [(nodes & Hfirst & Hsecond) _].
  - by vm_compute.
  - by rewrite Hfirst, Hsecond.
Defined.

(** ** The set of documented topics *)

(** C7: the set of help topics is the union of the two sets obtained
    from the listings of the two directories by stripping the extensions
    of every file name; a code is in it exactly when it is the stripped
    name of a file of one of the two listings, and the stripped name of
    a file is the part of the name before its first dot. *)
Theorem C7_help_topics_union fs names1 names2 :
  directories fs !! compiler_problems_dir = Some names1 →
  directories fs !! vscode_problems_dir = Some names2 →
  ∃ T,
    load_help_topics fs = Ok T ∧
    T = list_to_set (strip_extensions <$> names1) ∪
        list_to_set (strip_extensions <$> names2) ∧
    (∀ code, code ∈ T ↔
       ∃ name, (name ∈ names1 ∨ name ∈ names2) ∧ code = strip_extensions name) ∧
    (∀ name, getitem (split "." name) 0 = Ok (strip_extensions name)) ∧
    (∀ name, ∃ rest,
       name = strip_extensions name +:+ rest ∧
       occurs "." (strip_extensions name) = false ∧
       (rest = "" ∨ ∃ rest', rest = String "." rest')).
Proof.
  intros H1 H2. eexists. split; [by apply load_help_topics_spec|].
  split; [done|]. split; [|split; [apply first_field|apply strip_extensions_prefix]].
  intros code. rewrite elem_of_union, !elem_of_list_to_set, !list_elem_of_fmap.
  split.
  - intros [(name & -> & Hin)|(name & -> & Hin)]; exists name; auto.
  - intros (name & [Hin|Hin] & ->); [left|right]; eauto.
Qed.

Lemma C7_witness :
  ∃ T, load_help_topics fs_dot_file = Ok T ∧ "E001" ∈ T ∧ "E001.en" ∉ T.
Proof.
  destruct (C7_help_topics_union fs_dot_file ["E001.en.rst"; ".gitkeep"] [])
    as (T & HT & _ & Hmem & _); [by vm_compute..|].
  exists T. split; [exact HT|]. split.
  - apply Hmem. exists "E001.en.rst". split; [left; by left|done].
  - intros (name & [Hin|Hin] & Hname)%Hmem.
    + apply elem_of_cons in Hin as [->|Hin]; [done|].
      apply list_elem_of_singleton in Hin as ->. done.
    + by apply elem_of_nil in Hin.
Defined.

(** C10: the code a file name stands for is the part before its first
    dot: [E001.en.rst] gives [E001] and [.gitkeep] gives the empty
    string.  So when a listed file name starts with a dot, the empty
    string is a help topic, and a row with an empty code passes the
    check and is stored. *)
Theorem C10_first_dot_and_empty_code fs T names name :
  load_help_topics fs = Ok T →
  directories fs !! compiler_problems_dir = Some names ∨
  directories fs !! vscode_problems_dir = Some names →
  String "." name ∈ names →
  (∀ base rest, occurs "." base = false →
     getitem (split "." (base +:+ String "." rest)) 0 = Ok base) ∧
  getitem (split "." "E001.en.rst") 0 = Ok "E001" ∧
  getitem (split "." ".gitkeep") 0 = Ok "" ∧
  "" ∈ T ∧
  ∀ row text s,
    row !! 0 = Some "" → row !! 2 = Some text →
    process_row T row s =
      (Ok (), {| problem_infos := <["" := mkProblemCode text]> (problem_infos s);
                 stdout := stdout s |}).
Proof.
  intros HT Hdir Hname.
  split; [|split; [done|split; [done|]]].
  { intros base rest Hbase. by rewrite first_field, strip_extensions_app. }
  assert ("" ∈ T) as Hempty.
  { destruct (load_help_topics_Ok fs T HT) as (names1 & names2 & H1 & H2 & ->).
    apply elem_of_union.
    destruct Hdir as [Hdir|Hdir]; [left|right];
      apply elem_of_list_to_set, list_elem_of_fmap;
      exists (String "." name); (split; [done|congruence]). }
  split; [done|].
  intros row text s H0 H2. rewrite process_row_spec. unfold classify.
  by rewrite H0, H2, bool_decide_eq_true_2.
Qed.

Lemma C10_witness :
  process_row (list_to_set ["E001"; ""]) [""; "Category"; "No code"] initial_state =
    (Ok (), {| problem_infos := <["" := mkProblemCode "No code"]> ∅;
               stdout := "" |}).
Proof.
  destruct (C10_first_dot_and_empty_code fs_dot_file
              (list_to_set ["E001"; ""]) ["E001.en.rst"; ".gitkeep"] "gitkeep")
    as (_ & _ & _ & _ & Hrow).
  - by vm_compute.
  - left. by vm_compute.
  - right. by left.
  - exact (Hrow [""; "Category"; "No code"] "No code" initial_state
             eq_refl eq_refl).
Defined.

(** ** Bytes and code points *)

Lemma byte_val_of (x : Z) : (0 ≤ x < 256)%Z → byte_val (byte_of x) = x.
Proof.
  intros Hx. unfold byte_val, byte_of.
  destruct (Byte.of_N (Z.to_N x)) as [b|] eqn:E.
  - apply Byte.to_of_N in E. simpl. lia.
  - apply Byte.of_N_None_iff in E. lia.
Qed.

(** ** Reading back what was encoded *)

Lemma between_true lo hi x : (lo ≤ x ≤ hi)%Z → between lo hi x = true.
Proof. unfold between. lia. Qed.

Lemma between_false lo hi x : (x < lo ∨ hi < x)%Z → between lo hi x = false.
Proof. unfold between. lia. Qed.

Lemma scalar_range c :
  scalar c = true → (0 ≤ c ≤ 0xD7FF ∨ 0xE000 ≤ c ≤ 0x10FFFF)%Z.
Proof. unfold scalar, between. lia. Qed.

Ltac split_tests :=
  repeat match goal with
    | |- context [(?a <? ?b)%Z] => destruct (Z.ltb_spec a b); try lia
    | |- context [(?a =? ?b)%Z] => destruct (Z.eqb_spec a b); try lia
    | |- context [between ?lo ?hi ?x] =>
        first [rewrite (between_true lo hi x) by lia
              |rewrite (between_false lo hi x) by lia]
    end.

Lemma decode_utf8_char (c : Z) (bs : list byte) :
  scalar c = true →
  decode_utf8 (encode_utf8_char c ++ bs) = cons c <$> decode_utf8 bs.
Proof.
  intros Hc%scalar_range. unfold encode_utf8_char.
  assert (c / 4096 = c / 64 / 64)%Z as -> by (rewrite Z.div_div by lia; reflexivity).
  assert (c / 262144 = c / 64 / 64 / 64)%Z as -> by (rewrite !Z.div_div by lia; reflexivity).
  pose proof (Z.div_mod c 64 ltac:(lia)) as E0.
  pose proof (Z.mod_pos_bound c 64 ltac:(lia)) as B0.
  set (q1 := (c / 64)%Z) in *. set (r0 := (c mod 64)%Z) in *. 
  pose proof (Z.div_mod q1 64 ltac:(lia)) as E1.
  pose proof (Z.mod_pos_bound q1 64 ltac:(lia)) as B1.
  set (q2 := (q1 / 64)%Z) in *. set (r1 := (q1 mod 64)%Z) in *. 
  pose proof (Z.div_mod q2 64 ltac:(lia)) as E2.
  pose proof (Z.mod_pos_bound q2 64 ltac:(lia)) as B2.
  set (q3 := (q2 / 64)%Z) in *. set (r2 := (q2 mod 64)%Z) in *. 
  clearbody q1 r0 q2 r1 q3 r2.
  destruct (Z.ltb_spec c 0x80); [|destruct (Z.ltb_spec c 0x800); [|destruct (Z.ltb_spec c 0x10000)]];
    cbn [app decode_utf8]; unfold second_byte, continuation;
    rewrite !byte_val_of by lia; split_tests; cbn [andb];
    repeat f_equal; lia.
Qed.

Lemma decode_utf8_encode (text : list Z) :
  Forall (λ c, scalar c = true) text →
  decode_utf8 (encode_utf8 text) = Ok text.
Proof.
  induction 1 as [|c text Hc _ IH]; [done|].
  unfold encode_utf8 in *. cbn [fmap list_fmap concat].
  by rewrite decode_utf8_char, IH.
Qed.

Lemma code_units_encode (units : list Z) :
  Forall (λ u, 0 ≤ u < 65536)%Z units →
  code_units (concat (unit_bytes <$> units)) = Ok units.
Proof.
  induction 1 as [|u units Hu _ IH]; [done|].
  cbn [fmap list_fmap concat]. unfold unit_bytes at 1.
  cbn [app code_units]. rewrite IH.
  pose proof (Z.div_mod u 256 ltac:(lia)).
  pose proof (Z.mod_pos_bound u 256 ltac:(lia)).
  rewrite !byte_val_of by lia. cbn. repeat f_equal. lia.
Qed.

Lemma utf16_units_bounded (c : Z) :
  scalar c = true → Forall (λ u, 0 ≤ u < 65536)%Z (utf16_units c).
Proof.
  intros Hc%scalar_range. unfold utf16_units.
  pose proof (Z.div_mod (c - 0x10000) 1024 ltac:(lia)).
  pose proof (Z.mod_pos_bound (c - 0x10000) 1024 ltac:(lia)).
  destruct (Z.ltb_spec c 0x10000); repeat constructor; lia.
Qed.

Lemma from_code_units_char (c : Z) (units : list Z) :
  scalar c = true →
  from_code_units (utf16_units c ++ units) = cons c <$> from_code_units units.
Proof.
  intros Hc%scalar_range. unfold utf16_units.
  pose proof (Z.div_mod (c - 0x10000) 1024 ltac:(lia)).
  pose proof (Z.mod_pos_bound (c - 0x10000) 1024 ltac:(lia)).
  destruct (Z.ltb_spec c 0x10000); cbn [app from_code_units];
    split_tests; repeat f_equal; lia.
Qed.

Lemma from_code_units_encode (text : list Z) :
  Forall (λ c, scalar c = true) text →
  from_code_units (concat (utf16_units <$> text)) = Ok text.
Proof.
  induction 1 as [|c text Hc _ IH]; [done|].
  cbn [fmap list_fmap concat]. by rewrite from_code_units_char, IH.
Qed.

Lemma decode_utf16le_encode (text : list Z) :
  Forall (λ c, scalar c = true) text →
  decode_utf16le (encode_utf16le text) = Ok text.
Proof.
  intros Htext. unfold decode_utf16le, encode_utf16le.
  rewrite code_units_encode, result_bind_Ok; [by apply from_code_units_encode|].
  apply Forall_concat, Forall_fmap.
  eapply Forall_impl; [exact Htext|]. intros c. apply utf16_units_bounded.
Qed.

(** No UTF-8 encoding begins with the byte [FF], so none begins with the
    byte-order mark. *)
Lemma startswith_BOM_utf8 (text : list Z) :
  Forall (λ c, scalar c = true) text →
  startswith (encode_utf8 text) codecs.BOM_UTF16_LE = false.
Proof.
  intros [|c text' Hc%scalar_range _]; [done|].
  unfold encode_utf8, encode_utf8_char. cbn [fmap list_fmap concat].
  assert (∀ x bs, (0 ≤ x < 255)%Z →
            startswith (byte_of x :: bs) codecs.BOM_UTF16_LE = false) as Hlead.
  { intros x bs Hx. cbn [startswith codecs.BOM_UTF16_LE].
    destruct (Byte.eqb (byte_of x) xff) eqn:E; [|done].
    apply Byte.byte_dec_bl in E. apply (f_equal byte_val) in E.
    rewrite byte_val_of in E by lia. vm_compute in E. lia. }
  pose proof (Z.div_mod c 262144 ltac:(lia)).
  pose proof (Z.mod_pos_bound c 262144 ltac:(lia)).
  pose proof (Z.div_mod c 4096 ltac:(lia)).
  pose proof (Z.mod_pos_bound c 4096 ltac:(lia)).
  pose proof (Z.div_mod c 64 ltac:(lia)).
  pose proof (Z.mod_pos_bound c 64 ltac:(lia)).
  split_tests; cbn [app]; apply Hlead; lia.
Qed.

(** ** Stripping *)

Lemma lstrip_spec (text : list Z) :
  ∃ spaces,
    text = spaces ++ lstrip text ∧
    Forall (λ c, isspace c = true) spaces ∧
    ∀ c, head (lstrip text) = Some c → isspace c = false.
Proof.
  induction text as [|c text (spaces & E & Hspaces & Hhead)]; simpl.
  - exists []. by repeat split.
  - destruct (isspace c) eqn:Hc.
    + exists (c :: spaces). split; [by rewrite E at 1|]. split; [by constructor|done].
    + exists []. repeat split; [done|]. simpl. by intros ? [= <-].
Qed.

Lemma strip_spec (text : list Z) :
  ∃ before after,
    text = before ++ strip text ++ after ∧
    Forall (λ c, isspace c = true) before ∧
    Forall (λ c, isspace c = true) after ∧
    (∀ c, head (strip text) = Some c → isspace c = false) ∧
    (∀ c, last (strip text) = Some c → isspace c = false).
Proof.
  destruct (lstrip_spec text) as (before & E & Hbefore & Hhead).
  destruct (lstrip_spec (reverse (lstrip text))) as (after & E' & Hafter & Hlast).
  assert (lstrip text = strip text ++ reverse after) as Estrip.
  { unfold strip, rstrip. rewrite <-reverse_app, <-E'. by rewrite reverse_involutive. }
  exists before, (reverse after). repeat split.
  - by rewrite <-Estrip.
  - done.
  - by apply Forall_reverse.
  - intros c Hc. apply Hhead. rewrite Estrip.
    destruct (strip text); [done|]. exact Hc.
  - intros c Hc. apply Hlast. unfold strip, rstrip in Hc.
    by rewrite last_reverse in Hc.
Qed.

(** ** The version loader *)

Lemma startswith_app (prefix rest : list byte) :
  startswith (prefix ++ rest) prefix = true.
Proof.
  induction prefix as [|b prefix IH]; simpl; [done|].
  by rewrite Byte.byte_dec_lb, IH.
Qed.

(** C8: on bytes that do not begin with the UTF-16LE byte-order mark the
    loader returns their UTF-8 decoding, stripped; on bytes that begin
    with the mark it drops the mark, decodes the rest as UTF-16LE and
    returns that text, stripped.  Stripping removes whitespace at both
    ends and nothing else, and a text written in either encoding (with
    the mark for UTF-16LE) is read back as the same stripped text. *)
Theorem C8_version_loader files encoded_text :
  files !! "VERSION" = Some encoded_text →
  (startswith encoded_text codecs.BOM_UTF16_LE = false →
   version files = strip <$> decode_utf8 encoded_text) ∧
  (∀ rest, encoded_text = codecs.BOM_UTF16_LE ++ rest →
   version files = strip <$> decode_utf16le rest) ∧
  (∀ text, ∃ before after,
     text = before ++ strip text ++ after ∧
     Forall (λ c, isspace c = true) before ∧
     Forall (λ c, isspace c = true) after ∧
     (∀ c, head (strip text) = Some c → isspace c = false) ∧
     (∀ c, last (strip text) = Some c → isspace c = false)) ∧
  (∀ text, Forall (λ c, scalar c = true) text →
     encoded_text = encode_utf8 text ∨
     encoded_text = codecs.BOM_UTF16_LE ++ encode_utf16le text →
     version files = Ok (strip text)).
Proof.
  intros Hfile.
  assert (startswith encoded_text codecs.BOM_UTF16_LE = false →
          version files = strip <$> decode_utf8 encoded_text) as Hutf8.
  { intros Hbom. unfold version, read_binary.
    rewrite Hfile, result_bind_Ok, Hbom.
    destruct (decode_utf8 encoded_text); reflexivity. }
  assert (∀ rest, encoded_text = codecs.BOM_UTF16_LE ++ rest →
          version files = strip <$> decode_utf16le rest) as Hutf16.
  { intros rest ->. unfold version, read_binary.
    rewrite Hfile, result_bind_Ok, startswith_app, drop_app_length.
    destruct (decode_utf16le rest); reflexivity. }
  split; [done|]. split; [done|]. split; [apply strip_spec|].
  intros text Htext [->| ->].
  - rewrite Hutf8 by by apply startswith_BOM_utf8.
    by rewrite decode_utf8_encode.
  - rewrite (Hutf16 _ eq_refl). by rewrite decode_utf16le_encode.
Qed.

Lemma C8_witness :
  version {[ "VERSION" := [x20; x30; x2e; x31; x0a]%byte ]} = Ok [0x30; 0x2e; 0x31]%Z
  ∧ version {[ "VERSION" := encode_utf8 [0x30; 0x20AC; 0x0A]%Z ]} = Ok [0x30; 0x20AC]%Z.
Proof.
  split.
  - destruct (C8_version_loader {[ "VERSION" := [x20; x30; x2e; x31; x0a]%byte ]}
                [x20; x30; x2e; x31; x0a]%byte) as (Hutf8 & _); [by vm_compute|].
    rewrite Hutf8 by by vm_compute. by vm_compute.
  - destruct (C8_version_loader {[ "VERSION" := encode_utf8 [0x30; 0x20AC; 0x0A]%Z ]}
                (encode_utf8 [0x30; 0x20AC; 0x0A]%Z)) as (_ & _ & _ & Hsame);
      [by vm_compute|].
    rewrite (Hsame [0x30; 0x20AC; 0x0A]%Z); [by vm_compute| |by left].
    repeat constructor.
Defined.

(** * More properties of the extension *)

(** ** What the module body can end in *)

Section rows_effect.
Context (T : gset string).

Lemma for_each_rows_effect rows s r s' :
  for_each (process_row T) rows s = (r, s') →
  ((r = Ok () ∨ r = Raise IndexError) ∧ stdout s' = stdout s)
  ∨ ∃ code, r = Raise (SystemExit 1) ∧ stdout s' = stdout s +:+ missing_line code.
Proof.
  intros [(-> & _ & ->)|(pre & row & post & _ & _ &
            [(code & -> & _ & _ & ->)|(-> & _ & ->)])]%for_each_rows_inv.
  - left. auto.
  - right. eauto.
  - left. auto.
Qed.

Lemma process_definition_effect fs path s r s' :
  process_definition fs T path s = (r, s') →
  ((r = Ok () ∨ r = Raise IndexError ∨ r = Raise StopIteration
    ∨ r = Raise (FileNotFoundError path)) ∧ stdout s' = stdout s)
  ∨ ∃ code, r = Raise (SystemExit 1) ∧ stdout s' = stdout s +:+ missing_line code.
Proof.
  rewrite process_definition_spec.
  destruct (csv_files fs !! path) as [[|header rows]|].
  - intros [= <- <-]. left. auto.
  - intros [[[->| ->] Hout]|Hexit]%for_each_rows_effect; [left; auto..|by right].
  - intros [= <- <-]. left. auto 6.
Qed.

End rows_effect.

Lemma module_init_effect fs s r s' :
  module_init fs s = (r, s') →
  ((r = Ok () ∨ ∃ e, r = Raise e ∧ e ∈ load_errors) ∧ stdout s' = stdout s)
  ∨ ∃ code, r = Raise (SystemExit 1) ∧ stdout s' = stdout s +:+ missing_line code.
Proof.
  rewrite module_init_spec.
  destruct (load_help_topics fs) as [T|e] eqn:HT.
  2:{ intros [= <- <-]. left. split; [|done]. right. exists e. split; [done|].
      unfold load_help_topics, listdir in HT.
      destruct (directories fs !! compiler_problems_dir);
        [|injection HT as <-; set_solver].
      rewrite result_bind_Ok, topic_set_spec, result_bind_Ok in HT.
      destruct (directories fs !! vscode_problems_dir);
        [|injection HT as <-; set_solver].
      by rewrite result_bind_Ok, topic_set_spec in HT. }
  destruct (process_definition fs T compiler_catalog (fresh s))
    as [r1 s1] eqn:H1.
  apply process_definition_effect in H1 as [[Hr1 Hout1]|(code & -> & Hout1)].
  2:{ intros [= <- <-]. right. eauto. }
  destruct Hr1 as [->|Hr1].
  2:{ assert (∃ e, r1 = Raise e ∧ e ∈ load_errors) as (e & -> & He).
      { destruct Hr1 as [->|[->| ->]]; eexists; (split; [done|]);
          unfold load_errors; set_solver. }
      intros [= <- <-]. left. split; [eauto|done]. }
  destruct (process_definition fs T vscode_catalog s1) as [r2 s2] eqn:H2.
  apply process_definition_effect in H2 as [[Hr2 Hout2]|(code & -> & Hout2)].
  2:{ intros [= <- <-]. right. exists code. split; [done|].
      by rewrite Hout2, Hout1. }
  destruct Hr2 as [->|Hr2].
  { intros [= <- <-]. left. split; [by left|]. by rewrite Hout2, Hout1. }
  assert (∃ e, r2 = Raise e ∧ e ∈ load_errors) as (e & -> & He).
  { destruct Hr2 as [->|[->| ->]]; eexists; (split; [done|]);
      unfold load_errors; set_solver. }
  intros [= <- <-]. left. split; [eauto|]. by rewrite Hout2, Hout1.
Qed.

(** X1: the help topics are computed exactly when both directories can
    be listed.  When a listing fails, the error of that listing is the
    error of the module, the compiler directory being listed first;
    taking the first field of a split name never fails.  When both
    directories are listed the result is the union of the stripped
    names. *)
Theorem X1_help_topics_outcome fs :
  load_help_topics fs =
    match listdir fs compiler_problems_dir, listdir fs vscode_problems_dir with
    | Raise e, _ => Raise e
    | Ok _, Raise e => Raise e
    | Ok names1, Ok names2 =>
        Ok (list_to_set (strip_extensions <$> names1) ∪
            list_to_set (strip_extensions <$> names2))
    end.
Proof.
  unfold load_help_topics.
  destruct (listdir fs compiler_problems_dir) as [names1|e1]; [|done].
  rewrite result_bind_Ok, topic_set_spec, result_bind_Ok.
  destruct (listdir fs vscode_problems_dir) as [names2|e2]; [|done].
  by rewrite result_bind_Ok, topic_set_spec.
Qed.

(** X3: the module body writes to the standard output only when it
    exits: whatever the files hold, either the output is as it was, or
    the module raised [SystemExit(1)] and added the one line about a
    missing help topic. *)
Theorem X3_output_only_on_exit fs s r s' :
  module_init fs s = (r, s') →
  (stdout s' = stdout s ∧ ∀ status, r ≠ Raise (SystemExit status))
  ∨ ∃ code, r = Raise (SystemExit 1) ∧
            stdout s' = stdout s +:+ "Missing help topic for " +:+ code +:+ newline.
Proof.
  intros [[Hr Hout]|(code & -> & Hout)]%module_init_effect.
  - left. split; [done|]. intros status ->.
    destruct Hr as [?|(e & [= <-] & He)]; [done|].
    unfold load_errors in He.
    repeat (apply elem_of_cons in He as [He|He]; [done|]).
    by apply elem_of_nil in He.
  - right. exists code. split; [done|]. rewrite Hout. reflexivity.
Qed.

Lemma X3_witness :
  (stdout (module_init fs_missing_topic initial_state).2 = stdout initial_state
   ∧ ∀ status, Raise (SystemExit 1) ≠ (Raise (SystemExit status) : result ()))
  ∨ ∃ code, (Raise (SystemExit 1) : result ()) = Raise (SystemExit 1) ∧
            stdout (module_init fs_missing_topic initial_state).2 =
              stdout initial_state +:+ "Missing help topic for " +:+ code +:+ newline.
Proof.
  apply (X3_output_only_on_exit fs_missing_topic initial_state
           (Raise (SystemExit 1)) (module_init fs_missing_topic initial_state).2).
  by vm_compute.
Defined.

(** ** The registry after a successful initialization *)

(** X4: after a successful initialization the keys of the registry are
    the codes of the data rows of the two catalogs, no more and no less,
    whatever the dict held before; every key is a help topic. *)
Theorem X4_registry_keys fs s s' :
  module_init fs s = (Ok (), s') →
  ∃ T,
    load_help_topics fs = Ok T ∧
    ∀ code,
      (is_Some (problem_infos s' !! code) ↔
       ∃ row, row ∈ all_data_rows fs ∧ row !! 0 = Some code) ∧
      (is_Some (problem_infos s' !! code) → code ∈ T).
Proof.
  intros (T & HT & _ & _ & Hall & ->)%module_init_Ok_inv.
  exists T. split; [done|]. intros code. simpl.
  rewrite (register_is_Some T) by done. rewrite lookup_empty.
  assert (is_Some (None : option ProblemCode) ↔ False) as ->
    by (split; [by intros [? [=]]|done]).
  split; [tauto|].
  intros [[]|(row & Hrow & H0)].
  rewrite Forall_forall in Hall. by eapply stored_documented; eauto.
Qed.

Lemma X4_witness :
  ¬ is_Some (problem_infos
               (module_init fs_two_codes
                  {| problem_infos := {["E777" := mkProblemCode "Old"]};
                     stdout := "" |}).2 !! "E777").
Proof.
  destruct (X4_registry_keys fs_two_codes
              {| problem_infos := {["E777" := mkProblemCode "Old"]}; stdout := "" |}
              (module_init fs_two_codes
                 {| problem_infos := {["E777" := mkProblemCode "Old"]};
                    stdout := "" |}).2) as (T & _ & Hkeys); [by vm_compute|].
  intros (row & Hrow & H0)%(proj1 (Hkeys "E777")).
  vm_compute in Hrow.
  apply elem_of_cons in Hrow as [->|Hrow]; [done|].
  apply list_elem_of_singleton in Hrow as ->. done.
Defined.

(** X5: after a successful initialization the message of a code is the
    message of the last data row with that code in reading order, the
    compiler catalog before the vscode catalog: a later row replaces an
    earlier one also inside one catalog, and a code that only the
    compiler catalog has keeps the compiler's message. *)
Theorem X5_last_row_wins fs s s' pre row post code :
  module_init fs s = (Ok (), s') →
  all_data_rows fs = pre ++ row :: post →
  row !! 0 = Some code →
  (∀ later, later ∈ post → later !! 0 ≠ Some code) →
  ∃ text,
    row !! 2 = Some text ∧
    problem_infos s' !! code = Some (mkProblemCode text).
Proof.
  intros (T & HT & _ & _ & Hall & ->)%module_init_Ok_inv Hrows H0 Hpost.
  rewrite Hrows in *.
  assert (stored T row) as (code' & text & H0' & _ & H2).
  { rewrite Forall_forall in Hall. apply Hall, elem_of_app. right. by left. }
  exists text. split; [done|]. simpl. by apply register_lookup_last.
Qed.

Lemma X5_witness :
  problem_infos
    (module_init (make_fs ["E001.rst"; "E002.rst"] []
                    [["E001"; "Category"; "First"]; ["E002"; "Category"; "Msg2"];
                     ["E001"; "Category"; "Second"]] [])
       initial_state).2 !! "E001"
  = Some (mkProblemCode "Second").
Proof.
  destruct (X5_last_row_wins
              (make_fs ["E001.rst"; "E002.rst"] []
                 [["E001"; "Category"; "First"]; ["E002"; "Category"; "Msg2"];
                  ["E001"; "Category"; "Second"]] [])
              initial_state
              (module_init (make_fs ["E001.rst"; "E002.rst"] []
                    [["E001"; "Category"; "First"]; ["E002"; "Category"; "Msg2"];
                     ["E001"; "Category"; "Second"]] [])
                 initial_state).2
              [["E001"; "Category"; "First"]; ["E002"; "Category"; "Msg2"]]
              ["E001"; "Category"; "Second"] [] "E001")
    as (text & Htext & Hreg).
  - by vm_compute.
  - by vm_compute.
  - done.
  - intros later Hlater. by apply elem_of_nil in Hlater.
  - injection Htext as <-. exact Hreg.
Defined.

(** X6: the module body starts from an empty dict, so running it again
    after a successful run gives the same registry and the same output:
    entries do not pile up over reloads. *)
Theorem X6_reload_idempotent fs s s' :
  module_init fs s = (Ok (), s') →
  module_init fs s' = (Ok (), s').
Proof.
  intros (T & HT & Hh1 & Hh2 & Hall & ->)%module_init_Ok_inv.
  rewrite (module_init_run fs T _ HT Hh1 Hh2).
  by rewrite for_each_rows_stored.
Qed.

Lemma X6_witness :
  module_init fs_both_catalogs (module_init fs_both_catalogs initial_state).2
  = (Ok (), (module_init fs_both_catalogs initial_state).2).
Proof.
  apply (X6_reload_idempotent fs_both_catalogs initial_state). by vm_compute.
Defined.

(** ** What the outcome depends on *)

(** The module body sees the disk through the help topics and the two
    catalogs only. *)
Lemma module_init_ext fs fs' s :
  load_help_topics fs' = load_help_topics fs →
  csv_files fs' !! compiler_catalog = csv_files fs !! compiler_catalog →
  csv_files fs' !! vscode_catalog = csv_files fs !! vscode_catalog →
  module_init fs' s = module_init fs s.
Proof.
  intros HT H1 H2. rewrite !module_init_spec, HT.
  destruct (load_help_topics fs) as [T|e]; [|done].
  rewrite !(process_definition_spec _ T compiler_catalog), H1.
  destruct (match csv_files fs !! compiler_catalog with
            | Some [] => _ | Some (_ :: rows) => _ | None => _ end)
    as [[[]|e] s1]; [|done].
  by rewrite !(process_definition_spec _ T vscode_catalog), H2.
Qed.

(** X7: of the two listings only the set of the stripped names counts.
    The order in which [listdir] returns the names, names listed twice,
    which of the two directories a help file is in, and what follows the
    first dot of its name make no difference: two disks with the same
    catalogs and the same stripped names give the same outcome. *)
Theorem X7_only_stripped_names_count fs fs' s names1 names2 names1' names2' :
  directories fs !! compiler_problems_dir = Some names1 →
  directories fs !! vscode_problems_dir = Some names2 →
  directories fs' !! compiler_problems_dir = Some names1' →
  directories fs' !! vscode_problems_dir = Some names2' →
  (∀ code, code ∈ strip_extensions <$> names1' ++ names2'
           ↔ code ∈ strip_extensions <$> names1 ++ names2) →
  csv_files fs' = csv_files fs →
  load_help_topics fs' = load_help_topics fs ∧
  module_init fs' s = module_init fs s.
Proof.
  intros H1 H2 H1' H2' Hnames Hcsv.
  assert (load_help_topics fs' = load_help_topics fs) as HT.
  { rewrite (load_help_topics_spec fs names1 names2),
      (load_help_topics_spec fs' names1' names2') by done.
    f_equal. apply set_eq. intros code.
    rewrite !elem_of_union, !elem_of_list_to_set, <-!elem_of_app, <-!fmap_app.
    apply Hnames. }
  split; [done|]. apply module_init_ext; [done|by rewrite Hcsv..].
Qed.

Lemma X7_witness :
  module_init (make_fs ["E002.md"; "E002.txt"] ["E001.en.rst"]
                 [["E001"; "Category"; "Msg1"]; ["E002"; "Category"; "Msg2"]] [])
              initial_state
  = module_init fs_two_codes initial_state.
Proof.
  refine (proj2 (X7_only_stripped_names_count fs_two_codes
                   (make_fs ["E002.md"; "E002.txt"] ["E001.en.rst"]
                      [["E001"; "Category"; "Msg1"]; ["E002"; "Category"; "Msg2"]] [])
                   initial_state ["E001.rst"; "E002.rst"] []
                   ["E002.md"; "E002.txt"] ["E001.en.rst"] _ _ _ _ _ _));
    [by vm_compute..| |reflexivity].
  intros code.
  change (code ∈ ["E002"; "E002"; "E001"] ↔ code ∈ ["E001"; "E002"]).
  rewrite !elem_of_cons, !elem_of_nil. tauto.
Defined.

Lemma process_row_same_entry T row row' s :
  row !! 0 = row' !! 0 → row !! 2 = row' !! 2 →
  process_row T row' s = process_row T row s.
Proof.
  intros H0 H2. rewrite !process_row_spec. unfold classify. by rewrite H0, H2.
Qed.

Lemma for_each_same_entries T rows rows' s :
  same_entries rows rows' →
  for_each (process_row T) rows' s = for_each (process_row T) rows s.
Proof.
  intros H. revert s. induction H as [|row row' rows rows' [H0 H2] _ IH]; intros s.
  - done.
  - cbn [for_each]. unfold mbind, M_bind.
    rewrite (process_row_same_entry T row row' s H0 H2).
    destruct (process_row T row s) as [[[]|e] s1]; [apply IH|done].
Qed.

(** X8: of a catalog only the first and the third field of its data
    rows are read.  Two disks with the same directories, whose catalogs
    have some header row each and data rows that agree, row by row, on
    the first and on the third field, give the same outcome: the
    header, the category and any further field make no difference. *)
Theorem X8_only_code_and_message_read fs fs' s :
  directories fs' = directories fs →
  has_header fs compiler_catalog → has_header fs' compiler_catalog →
  has_header fs vscode_catalog → has_header fs' vscode_catalog →
  same_entries (data_rows fs compiler_catalog) (data_rows fs' compiler_catalog) →
  same_entries (data_rows fs vscode_catalog) (data_rows fs' vscode_catalog) →
  module_init fs' s = module_init fs s.
Proof.
  intros Hdirs [h1 H1] [h1' H1'] [h2 H2] [h2' H2'] Hsame1 Hsame2.
  assert (load_help_topics fs' = load_help_topics fs) as HT
    by (unfold load_help_topics, listdir; by rewrite Hdirs).
  rewrite !module_init_spec, HT.
  destruct (load_help_topics fs) as [T|e]; [|done].
  rewrite !(process_definition_spec _ T compiler_catalog), H1, H1'.
  rewrite (for_each_same_entries T _ _ _ Hsame1).
  destruct (for_each _ (data_rows fs compiler_catalog) _) as [[[]|e] s1]; [|done].
  rewrite !(process_definition_spec _ T vscode_catalog), H2, H2'.
  by rewrite (for_each_same_entries T _ _ _ Hsame2).
Qed.

Lemma X8_witness :
  module_init
    {| directories := directories fs_two_codes;
       csv_files := <[compiler_catalog :=
                        [["code"]; ["E001"; "Other"; "Msg1"; "more"];
                         ["E002"; ""; "Msg2"]]]>
                      (<[vscode_catalog := [[]]]> ∅) |}
    initial_state
  = module_init fs_two_codes initial_state.
Proof.
  apply (X8_only_code_and_message_read fs_two_codes).
  - done.
  - by exists header.
  - by exists ["code"].
  - by exists header.
  - by exists [].
  - repeat constructor.
  - constructor.
Defined.

(** ** Initialization, then the directive *)

(** X9: after a successful initialization the directive renders a code
    exactly when some data row of a catalog has it: for such a code it
    returns nodes and never raises, for every other code, a help file
    or not, it raises [KeyError]. *)
Theorem X9_render_after_init fs s s' code :
  module_init fs s = (Ok (), s') →
  ((∃ row, row ∈ all_data_rows fs ∧ row !! 0 = Some code) →
   ∃ nodes, render code s' = (Ok nodes, s')) ∧
  ((∀ row, row ∈ all_data_rows fs → row !! 0 ≠ Some code) →
   render code s' = (Raise (KeyError code), s')).
Proof.
  intros (T & HT & _ & _ & Hall & ->)%module_init_Ok_inv.
  pose proof (register_is_Some T (all_data_rows fs) ∅ code Hall) as Hkeys.
  set (s' := {| problem_infos := register (all_data_rows fs) ∅; stdout := stdout s |}).
  split.
  - intros Hrow.
    destruct (proj2 Hkeys (or_intror Hrow)) as [info Hinfo].
    by apply (render_registered s' code info).
  - intros Hnone. unfold render. rewrite run_spec. simpl.
    destruct (register (all_data_rows fs) ∅ !! code) as [info|] eqn:Hinfo; [|done].
    destruct (proj1 Hkeys (ltac:(eauto) : is_Some (Some info)))
      as [[? Hempty]|(row & Hrow & H0)].
    + by rewrite lookup_empty in Hempty.
    + by destruct (Hnone row Hrow).
Qed.

Lemma X9_witness :
  (∃ nodes, render "E002" (module_init fs_two_codes initial_state).2
            = (Ok nodes, (module_init fs_two_codes initial_state).2)) ∧
  render "E001.rst" (module_init fs_two_codes initial_state).2
  = (Raise (KeyError "E001.rst"), (module_init fs_two_codes initial_state).2).
Proof.
  split.
  - apply (X9_render_after_init fs_two_codes initial_state); [by vm_compute|].
    exists ["E002"; "Category"; "Msg2"]. split; [|done].
    vm_compute. right. by left.
  - apply (X9_render_after_init fs_two_codes initial_state); [by vm_compute|].
    intros row Hrow. vm_compute in Hrow.
    apply elem_of_cons in Hrow as [->|Hrow]; [done|].
    apply list_elem_of_singleton in Hrow as ->. done.
Defined.

(** ** Rows that stop the module *)



Lemma strip_extensions_no_dot (name : string) :
  occurs "." (strip_extensions name) = false.
Proof. by destruct (strip_extensions_prefix name) as (rest & _ & H & _). Qed.

Lemma help_topic_no_dot fs T code :
  load_help_topics fs = Ok T → code ∈ T → occurs "." code = false.
Proof.
  intros (names1 & names2 & _ & _ & ->)%load_help_topics_Ok.
  rewrite elem_of_union, !elem_of_list_to_set, !list_elem_of_fmap.
  intros [(name & -> & _)|(name & -> & _)]; apply strip_extensions_no_dot.
Qed.

(** X11: no help topic has a dot in it, so a code with a dot can never
    be documented: on catalogs with their header and their three fields,
    a data row whose code has a dot ends the module in [SystemExit(1)],
    whatever files the two directories hold. *)
Theorem X11_code_with_dot_aborts fs s row code :
  well_formed fs →
  row ∈ all_data_rows fs → row !! 0 = Some code → occurs "." code = true →
  (∀ T topic, load_help_topics fs = Ok T → topic ∈ T → occurs "." topic = false) ∧
  ∃ s', module_init fs s = (Raise (SystemExit 1), s').
Proof.
  intros ([names1 H1] & [names2 H2] & Hh1 & Hh2 & Hlen) Hrow H0 Hdot.
  split; [intros T topic; apply help_topic_no_dot|].
  pose proof (load_help_topics_spec fs names1 names2 H1 H2) as HT.
  set (T := list_to_set (strip_extensions <$> names1) ∪
            list_to_set (strip_extensions <$> names2)) in *.
  assert (code ∉ T) as Hnin.
  { intros Hin. apply (help_topic_no_dot fs T code HT) in Hin. congruence. }
  rewrite Forall_forall in Hlen.
  destruct (first_not_stored T (all_data_rows fs))
    as [Hall|(pre & r & post & Hrows & Hpre & Hr)].
  - rewrite Forall_forall in Hall. destruct Hnin.
    by eapply stored_documented; eauto.
  - destruct (row_with_fields T r) as [?|(c & Hc0 & Hcnin)]; [|done|].
    { apply Hlen. rewrite Hrows. apply elem_of_app. right. by left. }
    eexists. by eapply module_init_missing.
Qed.

Lemma X11_witness :
  ∃ s', module_init (make_fs ["E1.2.rst"] [] [["E1.2"; "Category"; "Dotted"]] [])
                    initial_state = (Raise (SystemExit 1), s').
Proof.
  apply (X11_code_with_dot_aborts
           (make_fs ["E1.2.rst"] [] [["E1.2"; "Category"; "Dotted"]] [])
           initial_state ["E1.2"; "Category"; "Dotted"] "E1.2").
  - apply well_formed_make_fs. repeat constructor.
  - vm_compute. by left.
  - done.
  - done.
Defined.

Lemma stored_mono T T' row : T ⊆ T' → stored T row → stored T' row.
Proof.
  intros Hsub (code & text & H0 & Hin & H2). exists code, text. auto.
Qed.

(** X12: help files that no catalog asks for do no harm.  When the
    module body succeeds on a disk, it succeeds with the same registry
    on every disk with the same catalogs whose two listings hold at
    least the same names. *)
Theorem X12_more_help_files_harmless fs fs' s s' names1 names2 names1' names2' :
  module_init fs s = (Ok (), s') →
  directories fs !! compiler_problems_dir = Some names1 →
  directories fs !! vscode_problems_dir = Some names2 →
  directories fs' !! compiler_problems_dir = Some names1' →
  directories fs' !! vscode_problems_dir = Some names2' →
  names1 ⊆ names1' → names2 ⊆ names2' →
  csv_files fs' = csv_files fs →
  module_init fs' s = (Ok (), s').
Proof.
  intros (T & HT & [h1 Hh1] & [h2 Hh2] & Hall & ->)%module_init_Ok_inv
    H1 H2 H1' H2' Hsub1 Hsub2 Hcsv.
  rewrite (load_help_topics_spec fs names1 names2 H1 H2) in HT.
  injection HT as <-.
  pose proof (load_help_topics_spec fs' names1' names2' H1' H2') as HT'.
  assert (all_data_rows fs' = all_data_rows fs) as Hrows
    by (unfold all_data_rows, data_rows; by rewrite Hcsv).
  rewrite (module_init_run fs' _ s HT'), Hrows.
  - rewrite for_each_rows_stored; [done|].
    eapply Forall_impl; [exact Hall|]. intros row. apply stored_mono.
    intros code. rewrite !elem_of_union, !elem_of_list_to_set, !list_elem_of_fmap.
    intros [(name & -> & Hin)|(name & -> & Hin)]; [left|right]; eauto.
  - exists h1. unfold data_rows. by rewrite Hcsv, Hh1.
  - exists h2. unfold data_rows. by rewrite Hcsv, Hh2.
Qed.

Lemma X12_witness :
  module_init (make_fs ["E001.rst"; "E002.rst"; "E003.rst"] ["README.md"]
                 [["E001"; "Category"; "Msg1"]; ["E002"; "Category"; "Msg2"]] [])
              initial_state
  = (Ok (), (module_init fs_two_codes initial_state).2).
Proof.
  refine (X12_more_help_files_harmless fs_two_codes
            (make_fs ["E001.rst"; "E002.rst"; "E003.rst"] ["README.md"]
               [["E001"; "Category"; "Msg1"]; ["E002"; "Category"; "Msg2"]] [])
            initial_state (module_init fs_two_codes initial_state).2
            ["E001.rst"; "E002.rst"] []
            ["E001.rst"; "E002.rst"; "E003.rst"] ["README.md"] _ _ _ _ _ _ _ _);
    [by vm_compute..| | |reflexivity].
  - intros name. rewrite !elem_of_cons. tauto.
  - intros name Hname. by apply elem_of_nil in Hname.
Defined.

(** X13: a row with fewer than three fields never puts an entry in the
    registry, and the code is checked before the message is read: a
    short row whose code has no help topic gives the line and
    [SystemExit(1)]; a short row whose code has one, and a row without
    fields, give [IndexError] with the state as it was. *)
Theorem X13_short_row T (row : list string) s :
  (List.length row < 3)%nat →
  process_row T row s =
    match row !! 0 with
    | None => (Raise IndexError, s)
    | Some code =>
        if bool_decide (code ∈ T) then (Raise IndexError, s)
        else (Raise (SystemExit 1),
              {| problem_infos := problem_infos s;
                 stdout := stdout s +:+ "Missing help topic for " +:+ code +:+ newline |})
    end.
Proof.
  intros Hlen. rewrite process_row_spec. unfold classify.
  destruct (row !! 0) as [code|]; [|done].
  case_bool_decide; [|reflexivity].
  by rewrite (lookup_ge_None_2 row 2) by lia.
Qed.

Lemma X13_witness :
  process_row (list_to_set ["E001"]) ["E001"; "Category"] initial_state
  = (Raise IndexError, initial_state).
Proof.
  rewrite (X13_short_row (list_to_set ["E001"]) ["E001"; "Category"] initial_state).
  - by vm_compute.
  - simpl. lia.
Defined.

(** X14: [required_arguments] covers what [run] reads.  With at least
    that many arguments [run] never raises [IndexError]: it renders the
    first argument and ignores the others; with fewer it raises
    [IndexError] and reads nothing of the registry. *)
Theorem X14_run_reads_first_argument (arguments : list string) s :
  ((ProblemSummary.required_arguments ≤ List.length arguments)%nat →
   ∃ code, arguments !! 0 = Some code ∧
           ProblemSummary.run arguments s = render code s) ∧
  ((List.length arguments < ProblemSummary.required_arguments)%nat →
   ProblemSummary.run arguments s = (Raise IndexError, s)).
Proof.
  unfold ProblemSummary.required_arguments. split; intros Hlen.
  - destruct arguments as [|code rest]; [simpl in Hlen; lia|].
    exists code. split; [done|]. unfold render. by rewrite !run_spec.
  - destruct arguments as [|code rest]; [|simpl in Hlen; lia].
    by rewrite run_spec.
Qed.

Lemma X14_witness :
  ProblemSummary.run ["E001"; "ignored"] initial_state = render "E001" initial_state.
Proof.
  destruct (X14_run_reads_first_argument ["E001"; "ignored"] initial_state)
    as [Hrun _].
  destruct Hrun as (code & [= <-] & Hrun);
    [cbv [ProblemSummary.required_arguments List.length]; lia|]. exact Hrun.
Defined.

(** ** Splitting a name *)

Lemma split_cons (sep : ascii) (s : string) :
  ∃ field fields, split sep s = field :: fields.
Proof.
  destruct s as [|c s]; simpl; [by eexists _, _|].
  destruct (Ascii.eqb c sep); [by eexists _, _|].
  destruct (split sep s); by eexists _, _.
Qed.

(** X15: [split] loses nothing and cuts at every separator: joining the
    fields of a split with the separator gives the string back, no
    field has the separator in it, and there is always a first field. *)
Theorem X15_split_join (sep : ascii) (s : string) :
  join_fields sep (split sep s) = s ∧
  Forall (λ field, occurs sep field = false) (split sep s) ∧
  ∃ field fields, split sep s = field :: fields.
Proof.
  split; [|split; [|apply split_cons]].
  - induction s as [|c s IH]; [done|]. cbn [split].
    destruct (split_cons sep s) as (field & fields & E). rewrite E in *.
    destruct (Ascii.eqb c sep) eqn:Hc.
    + apply Ascii.eqb_eq in Hc as ->.
      change (String sep (join_fields sep (field :: fields)) = String sep s).
      by rewrite IH.
    + destruct fields as [|field' fields]; cbn [join_fields] in *;
        by rewrite <-IH.
  - induction s as [|c s IH]; [by repeat constructor|]. cbn [split].
    destruct (Ascii.eqb c sep) eqn:Hc; [by constructor|].
    destruct (split sep s) as [|field fields]; [by repeat constructor; simpl; rewrite Hc|].
    inversion IH as [|? ? Hfield Hfields]; subst.
    constructor; [|done]. simpl. by rewrite Hc, Hfield.
Qed.

(** * More properties of the version loader *)

(** ** Decoding, read backwards *)

Lemma byte_val_bounded (b : byte) : (0 ≤ byte_val b < 256)%Z.
Proof. unfold byte_val. pose proof (Byte.to_N_bounded b). lia. Qed.

Lemma byte_of_val (b : byte) : byte_of (byte_val b) = b.
Proof.
  unfold byte_of, byte_val. by rewrite Z2N.inj, N2Z.id, Byte.of_to_N
    || (rewrite N2Z.id, Byte.of_to_N; done).
Qed.

Lemma between_spec lo hi x : between lo hi x = true ↔ (lo ≤ x ≤ hi)%Z.
Proof. unfold between. lia. Qed.

Ltac bytes_back :=
  repeat match goal with
    | |- byte_of ?e :: _ = ?b :: _ =>
        replace e with (byte_val b) by (Z.div_mod_to_equations; lia);
        rewrite (byte_of_val b); f_equal
    end.

(** One step of the UTF-8 decoder: at the end of the bytes, or an
    error, or the encoding of one scalar value was read. *)
Lemma decode_utf8_step (bs : list byte) :
  bs = [] ∨ decode_utf8 bs = Raise UnicodeDecodeError ∨
  ∃ c rest,
    scalar c = true ∧ bs = encode_utf8_char c ++ rest ∧
    decode_utf8 bs = cons c <$> decode_utf8 rest.
Proof.
  destruct bs as [|b0 bs1]; [by left|]. right.
  cbn [decode_utf8].
  pose proof (byte_val_bounded b0) as B0.
  destruct (Z.ltb_spec (byte_val b0) 0x80).
  { right. exists (byte_val b0), bs1. repeat split.
    - unfold scalar, between. lia.
    - unfold encode_utf8_char. split_tests. by rewrite byte_of_val. }
  destruct (between 0xC2 0xDF (byte_val b0)) eqn:L2.
  { apply between_spec in L2.
    destruct bs1 as [|b1 bs2]; [by left|].
    pose proof (byte_val_bounded b1) as B1.
    unfold continuation.
    destruct (between 0x80 0xBF (byte_val b1)) eqn:C1; [|by left].
    apply between_spec in C1.
    right. eexists _, bs2. repeat split.
    - unfold scalar, between. lia.
    - unfold encode_utf8_char. split_tests. cbn [app]. symmetry. by bytes_back. }
  destruct (between 0xE0 0xEF (byte_val b0)) eqn:L3.
  { apply between_spec in L3.
    destruct bs1 as [|b1 [|b2 bs3]]; [by left..|].
    pose proof (byte_val_bounded b1) as B1.
    pose proof (byte_val_bounded b2) as B2.
    destruct (second_byte (byte_val b0) (byte_val b1) && continuation (byte_val b2))
      eqn:C; [|by left].
    apply andb_true_iff in C as [C1 C2].
    unfold continuation in C2. apply between_spec in C2.
    assert ((byte_val b0 = 0xE0 → 0xA0 ≤ byte_val b1)
            ∧ (byte_val b0 = 0xED → byte_val b1 ≤ 0x9F)
            ∧ 0x80 ≤ byte_val b1 ≤ 0xBF)%Z as C1'.
    { unfold second_byte, continuation, between in C1.
      repeat match type of C1 with
        | context [(?a =? ?b)%Z] => destruct (Z.eqb_spec a b)
        end; lia. }
    clear C1.
    right. eexists _, bs3. repeat split.
    - unfold scalar, between. lia.
    - unfold encode_utf8_char. split_tests. cbn [app]. symmetry. by bytes_back. }
  destruct (between 0xF0 0xF4 (byte_val b0)) eqn:L4; [|by left].
  apply between_spec in L4.
  destruct bs1 as [|b1 [|b2 [|b3 bs4]]]; [by left..|].
  pose proof (byte_val_bounded b1) as B1.
  pose proof (byte_val_bounded b2) as B2.
  pose proof (byte_val_bounded b3) as B3.
  destruct (second_byte (byte_val b0) (byte_val b1) && continuation (byte_val b2)
            && continuation (byte_val b3)) eqn:C; [|by left].
  apply andb_true_iff in C as [[C1 C2]%andb_true_iff C3].
  unfold continuation in C2, C3. apply between_spec in C2, C3.
  assert ((byte_val b0 = 0xF0 → 0x90 ≤ byte_val b1)
          ∧ (byte_val b0 = 0xF4 → byte_val b1 ≤ 0x8F)
          ∧ 0x80 ≤ byte_val b1 ≤ 0xBF)%Z as C1'.
  { unfold second_byte, continuation, between in C1.
    repeat match type of C1 with
      | context [(?a =? ?b)%Z] => destruct (Z.eqb_spec a b)
      end; lia. }
  clear C1.
  right. eexists _, bs4. repeat split.
  - unfold scalar, between. lia.
  - unfold encode_utf8_char. split_tests. cbn [app]. symmetry. by bytes_back.
Qed.

Lemma encode_utf8_char_length (c : Z) : (0 < List.length (encode_utf8_char c))%nat.
Proof. unfold encode_utf8_char. split_tests; simpl; lia. Qed.

Lemma encode_utf8_cons (c : Z) (text : list Z) :
  encode_utf8 (c :: text) = encode_utf8_char c ++ encode_utf8 text.
Proof. done. Qed.

(** The UTF-8 decoder raises [UnicodeDecodeError], or returns scalar
    values whose encoding is the bytes it was given. *)
Lemma decode_utf8_inv (bs : list byte) :
  decode_utf8 bs = Raise UnicodeDecodeError ∨
  ∃ text, decode_utf8 bs = Ok text ∧
          Forall (λ c, scalar c = true) text ∧ encode_utf8 text = bs.
Proof.
  remember (List.length bs) as n eqn:Hn. revert bs Hn.
  induction n as [n IH] using lt_wf_ind. intros bs ->.
  destruct (decode_utf8_step bs) as [->|[Herr|(c & rest & Hc & -> & Hstep)]].
  - right. by exists [].
  - by left.
  - pose proof (encode_utf8_char_length c) as Hlen.
    destruct (IH (List.length rest)) with (bs := rest)
      as [Herr|(text & Htext & Hscalar & Henc)]; [rewrite length_app; lia|done| |].
    + left. by rewrite Hstep, Herr.
    + right. exists (c :: text). rewrite Hstep, Htext, encode_utf8_cons, Henc.
      split; [done|]. split; [by constructor|done].
Qed.

Lemma code_units_inv (bs : list byte) :
  code_units bs = Raise UnicodeDecodeError ∨
  ∃ units, code_units bs = Ok units ∧
           Forall (λ u, 0 ≤ u < 65536)%Z units ∧
           concat (unit_bytes <$> units) = bs ∧
           List.length bs = (2 * List.length units)%nat.
Proof.
  remember (List.length bs) as n eqn:Hn. revert bs Hn.
  induction n as [n IH] using lt_wf_ind. intros bs ->.
  destruct bs as [|lo [|hi bs]]; [right; by exists []|by left|].
  destruct (IH (List.length bs)) with (bs := bs)
    as [Herr|(units & Hunits & Hbound & Hbytes & Hlen)]; [simpl; lia|done| |].
  - left. cbn [code_units]. by rewrite Herr.
  - right. exists ((byte_val lo + 256 * byte_val hi)%Z :: units).
    pose proof (byte_val_bounded lo). pose proof (byte_val_bounded hi).
    cbn [code_units]. rewrite Hunits. split; [done|].
    split; [constructor; [lia|done]|]. split; [|simpl; lia].
    cbn [fmap list_fmap concat]. rewrite Hbytes. unfold unit_bytes.
    cbn [app]. by bytes_back.
Qed.

Lemma from_code_units_inv (units : list Z) :
  Forall (λ u, 0 ≤ u < 65536)%Z units →
  from_code_units units = Raise UnicodeDecodeError ∨
  ∃ text, from_code_units units = Ok text ∧
          Forall (λ c, scalar c = true) text ∧
          concat (utf16_units <$> text) = units.
Proof.
  remember (List.length units) as n eqn:Hn. revert units Hn.
  induction n as [n IH] using lt_wf_ind. intros units -> Hbound.
  destruct units as [|u units1]; [right; by exists []|].
  apply Forall_cons in Hbound as [Hu Hbound1].
  cbn [from_code_units].
  destruct (between 0xD800 0xDBFF u) eqn:Hhigh.
  - apply between_spec in Hhigh.
    destruct units1 as [|u' units2]; [by left|].
    apply Forall_cons in Hbound1 as [Hu' Hbound2].
    destruct (between 0xDC00 0xDFFF u') eqn:Hlow; [|by left].
    apply between_spec in Hlow.
    destruct (IH (List.length units2)) with (units := units2)
      as [Herr|(text & Htext & Hscalar & Henc)]; [simpl; lia|done..| |].
    + left. by rewrite Herr.
    + right. eexists (_ :: text). rewrite Htext. split; [done|].
      split; [constructor; [unfold scalar, between; lia|done]|].
      cbn [fmap list_fmap concat]. rewrite Henc. unfold utf16_units.
      split_tests. cbn [app]. repeat f_equal; Z.div_mod_to_equations; lia.
  - destruct (between 0xDC00 0xDFFF u) eqn:Hlow; [by left|].
    unfold between in Hhigh, Hlow.
    destruct (IH (List.length units1)) with (units := units1)
      as [Herr|(text & Htext & Hscalar & Henc)]; [simpl; lia|done..| |].
    + left. by rewrite Herr.
    + right. exists (u :: text). rewrite Htext. split; [done|].
      split; [constructor; [unfold scalar, between; lia|done]|].
      cbn [fmap list_fmap concat]. rewrite Henc. unfold utf16_units.
      by split_tests.
Qed.

(** The UTF-16LE decoder raises [UnicodeDecodeError], or returns scalar
    values whose encoding is the bytes it was given. *)
Lemma decode_utf16le_inv (bs : list byte) :
  decode_utf16le bs = Raise UnicodeDecodeError ∨
  ∃ text, decode_utf16le bs = Ok text ∧
          Forall (λ c, scalar c = true) text ∧ encode_utf16le text = bs.
Proof.
  unfold decode_utf16le, encode_utf16le.
  destruct (code_units_inv bs) as [->|(units & -> & Hbound & Hbytes & _)];
    [by left|].
  rewrite result_bind_Ok.
  destruct (from_code_units_inv units Hbound) as [->|(text & -> & Hscalar & Henc)];
    [by left|].
  right. exists text. by rewrite Henc.
Qed.

Lemma startswith_true (bs prefix : list byte) :
  startswith bs prefix = true → bs = prefix ++ drop (List.length prefix) bs.
Proof.
  revert bs. induction prefix as [|p prefix IH]; intros bs; [done|].
  destruct bs as [|b bs]; [done|]. cbn [startswith].
  intros [Hb Hrest]%andb_true_iff. apply Byte.byte_dec_bl in Hb as ->.
  cbn [app List.length drop]. f_equal. by apply IH.
Qed.

(** ** Stripping, read backwards *)

Lemma lstrip_spaces (spaces text : list Z) :
  Forall (λ c, isspace c = true) spaces → lstrip (spaces ++ text) = lstrip text.
Proof. induction 1 as [|c spaces Hc _ IH]; simpl; [done|]. by rewrite Hc. Qed.

Lemma lstrip_id (text : list Z) :
  (∀ c, head text = Some c → isspace c = false) → lstrip text = text.
Proof.
  destruct text as [|c text]; [done|]. intros H. simpl. by rewrite (H c).
Qed.

Lemma rstrip_spaces (text spaces : list Z) :
  Forall (λ c, isspace c = true) spaces → rstrip (text ++ spaces) = rstrip text.
Proof.
  intros H. unfold rstrip. rewrite reverse_app, lstrip_spaces; [done|].
  by apply Forall_reverse.
Qed.

Lemma rstrip_id (text : list Z) :
  (∀ c, last text = Some c → isspace c = false) → rstrip text = text.
Proof.
  intros H. unfold rstrip. rewrite lstrip_id; [apply reverse_involutive|].
  intros c. rewrite head_reverse. apply H.
Qed.

(** The text between the whitespace at the two ends is what [strip]
    returns. *)
Lemma strip_core (before core after : list Z) :
  Forall (λ c, isspace c = true) before →
  Forall (λ c, isspace c = true) after →
  (∀ c, head core = Some c → isspace c = false) →
  (∀ c, last core = Some c → isspace c = false) →
  strip (before ++ core ++ after) = core.
Proof.
  intros Hbefore Hafter Hhead Hlast. unfold strip.
  rewrite lstrip_spaces by done.
  destruct core as [|c core].
  - simpl. rewrite <-(app_nil_r after), lstrip_spaces by done. done.
  - rewrite lstrip_id.
    + rewrite rstrip_spaces by done. by apply rstrip_id.
    + intros c'. simpl. intros [= <-]. by apply Hhead.
Qed.

Lemma strip_scalar (text : list Z) :
  Forall (λ c, scalar c = true) text → Forall (λ c, scalar c = true) (strip text).
Proof.
  destruct (strip_spec text) as (before & after & E & _).
  rewrite E at 1. by intros [_ [H _]%Forall_app]%Forall_app.
Qed.

(** What the loader does once the file is read. *)
Lemma version_read files bs :
  files !! "VERSION" = Some bs →
  version files =
    strip <$> (if startswith bs codecs.BOM_UTF16_LE
               then decode_utf16le (drop 2 bs) else decode_utf8 bs).
Proof.
  intros Hfile. unfold version, read_binary. rewrite Hfile, result_bind_Ok.
  destruct (startswith bs codecs.BOM_UTF16_LE).
  - change (List.length codecs.BOM_UTF16_LE) with 2%nat.
    by destruct (decode_utf16le (drop 2 bs)).
  - by destruct (decode_utf8 bs).
Qed.

(** The file is read and well formed: the loader returns a text of
    scalar values whose encoding the file is. *)
Lemma version_Ok_inv files bs v :
  files !! "VERSION" = Some bs → version files = Ok v →
  ∃ text,
    Forall (λ c, scalar c = true) text ∧ v = strip text ∧
    (startswith bs codecs.BOM_UTF16_LE = false ∧ bs = encode_utf8 text
     ∨ bs = codecs.BOM_UTF16_LE ++ encode_utf16le text).
Proof.
  intros Hfile. rewrite (version_read files bs Hfile).
  destruct (startswith bs codecs.BOM_UTF16_LE) eqn:Hbom.
  - apply startswith_true in Hbom. change (List.length codecs.BOM_UTF16_LE) with 2%nat in Hbom.
    destruct (decode_utf16le_inv (drop 2 bs)) as [->|(text & -> & Hscalar & Henc)];
      [done|].
    intros [= <-]. exists text. split; [done|]. split; [done|].
    right. by rewrite Henc.
  - destruct (decode_utf8_inv bs) as [->|(text & -> & Hscalar & Henc)]; [done|].
    intros [= <-]. exists text. auto.
Qed.

Lemma version_Raise_inv files e :
  version files = Raise e →
  (files !! "VERSION" = None ∧ e = FileNotFoundError "VERSION")
  ∨ (is_Some (files !! "VERSION") ∧ e = UnicodeDecodeError).
Proof.
  destruct (files !! "VERSION") as [bs|] eqn:Hfile.
  - rewrite (version_read files bs Hfile). intros H. right. split; [done|].
    destruct (startswith bs codecs.BOM_UTF16_LE).
    + destruct (decode_utf16le_inv (drop 2 bs)) as [E|(text & E & _)];
        rewrite E in H; by inversion H.
    + destruct (decode_utf8_inv bs) as [E|(text & E & _)];
        rewrite E in H; by inversion H.
  - unfold version, read_binary. rewrite Hfile. intros [= <-]. by left.
Qed.

(** A text of scalar values written in either encoding is read back
    stripped. *)
Lemma version_of_text files bs text :
  files !! "VERSION" = Some bs →
  Forall (λ c, scalar c = true) text →
  bs = encode_utf8 text ∨ bs = codecs.BOM_UTF16_LE ++ encode_utf16le text →
  version files = Ok (strip text).
Proof.
  intros Hfile Htext Hbs. rewrite (version_read files bs Hfile).
  destruct Hbs as [->| ->].
  - by rewrite startswith_BOM_utf8, decode_utf8_encode.
  - rewrite startswith_app. change (drop 2 (codecs.BOM_UTF16_LE ++ ?l)) with l.
    by rewrite decode_utf16le_encode.
Qed.

(** ** The loader *)

(** X16: when the file [VERSION] is read, the loader rejects it exactly
    when its bytes are not well formed: it raises [UnicodeDecodeError],
    and no other exception, if and only if the bytes are neither the
    UTF-8 encoding of a text of Unicode scalar values nor the
    byte-order mark followed by the UTF-16LE encoding of such a text;
    otherwise it returns a version. *)
Theorem X16_version_rejects_ill_formed files bs :
  files !! "VERSION" = Some bs →
  (version files = Raise UnicodeDecodeError ∨ ∃ v, version files = Ok v) ∧
  (version files = Raise UnicodeDecodeError ↔
   ¬ ∃ text, Forall (λ c, scalar c = true) text ∧
             (bs = encode_utf8 text
              ∨ bs = codecs.BOM_UTF16_LE ++ encode_utf16le text)).
Proof.
  intros Hfile.
  assert (version files = Raise UnicodeDecodeError ∨ ∃ v, version files = Ok v)
    as Hcases.
  { destruct (version files) as [v|e] eqn:Hv; [right; eauto|left].
    apply version_Raise_inv in Hv as [[Hnone _]|[_ ->]]; [congruence|done]. }
  split; [done|]. split.
  - intros Herr (text & Htext & Hbs).
    by rewrite (version_of_text files bs text Hfile Htext Hbs) in Herr.
  - intros Hnone. destruct Hcases as [Herr|[v Hv]]; [done|].
    destruct Hnone.
    destruct (version_Ok_inv files bs v Hfile Hv)
      as (text & Htext & _ & [[_ ->]| ->]); exists text; auto.
Qed.

Lemma X16_witness :
  version {[ "VERSION" := [xc0; x80]%byte ]} = Raise UnicodeDecodeError
  ∨ ∃ v, version {[ "VERSION" := [xc0; x80]%byte ]} = Ok v.
Proof.
  apply (X16_version_rejects_ill_formed {[ "VERSION" := [xc0; x80]%byte ]}
           [xc0; x80]%byte).
  by vm_compute.
Defined.

(** X17: the loader accepts well-formed files only.  When it returns a
    version, the bytes of the file are the UTF-8 encoding of a text of
    Unicode scalar values, or the byte-order mark and the UTF-16LE
    encoding of such a text, and the version is that text stripped:
    overlong forms, surrogates, truncated sequences and code points
    above [U+10FFFF] are never read as text. *)
Theorem X17_version_accepts_encodings_only files bs v :
  files !! "VERSION" = Some bs →
  version files = Ok v →
  ∃ text,
    Forall (λ c, scalar c = true) text ∧ v = strip text ∧
    (bs = encode_utf8 text ∨ bs = codecs.BOM_UTF16_LE ++ encode_utf16le text).
Proof.
  intros Hfile Hv.
  destruct (version_Ok_inv files bs v Hfile Hv)
    as (text & Htext & -> & [[_ ->]| ->]); exists text; auto.
Qed.

Lemma X17_witness :
  ∃ text,
    Forall (λ c, scalar c = true) text ∧ [0x30; 0x2e; 0x31]%Z = strip text ∧
    ([x30; x2e; x31; x0a]%byte = encode_utf8 text
     ∨ [x30; x2e; x31; x0a]%byte = codecs.BOM_UTF16_LE ++ encode_utf16le text).
Proof.
  apply (X17_version_accepts_encodings_only
           {[ "VERSION" := [x30; x2e; x31; x0a]%byte ]}); by vm_compute.
Defined.

(** X18: a loaded version is clean: every element is a Unicode scalar
    value, and neither its first nor its last character is whitespace. *)
Theorem X18_version_clean files v :
  version files = Ok v →
  Forall (λ c, scalar c = true) v ∧
  (∀ c, head v = Some c → isspace c = false) ∧
  (∀ c, last v = Some c → isspace c = false).
Proof.
  intros Hv.
  destruct (files !! "VERSION") as [bs|] eqn:Hfile;
    [|by unfold version, read_binary in Hv; rewrite Hfile in Hv].
  destruct (version_Ok_inv files bs v Hfile Hv) as (text & Htext & -> & _).
  split; [by apply strip_scalar|].
  by destruct (strip_spec text) as (before & after & _ & _ & _ & Hhead & Hlast).
Qed.

Lemma X18_witness :
  Forall (λ c, scalar c = true) [0x30; 0x2e; 0x31]%Z ∧
  (∀ c, head [0x30; 0x2e; 0x31]%Z = Some c → isspace c = false) ∧
  (∀ c, last [0x30; 0x2e; 0x31]%Z = Some c → isspace c = false).
Proof.
  apply (X18_version_clean
           {[ "VERSION" := [xff; xfe; x20; x00; x30; x00; x2e; x00; x31; x00;
                            x0d; x00; x0a; x00]%byte ]}).
  by vm_compute.
Defined.

Lemma lstrip_snoc (text : list Z) (c : Z) :
  isspace c = false → lstrip (text ++ [c]) = lstrip text ++ [c].
Proof.
  intros Hc. induction text as [|c' text IH]; simpl; [by rewrite Hc|].
  by destruct (isspace c').
Qed.

Lemma rstrip_cons (c : Z) (text : list Z) :
  isspace c = false → rstrip (c :: text) = c :: rstrip text.
Proof.
  intros Hc. unfold rstrip.
  by rewrite reverse_cons, lstrip_snoc, reverse_snoc.
Qed.

(** X19: the mark of UTF-8 is not taken off.  A file that begins with
    the bytes [EF BB BF] is read as UTF-8 and its version begins with
    [U+FEFF], which is no whitespace: the whitespace after the mark
    stays, only the end of the text is stripped. *)
Theorem X19_utf8_mark_kept files text :
  Forall (λ c, scalar c = true) text →
  files !! "VERSION" = Some (BOM_UTF8 ++ encode_utf8 text) →
  version files = Ok (0xFEFF%Z :: rstrip text).
Proof.
  intros Htext Hfile.
  rewrite (version_of_text files _ (0xFEFF%Z :: text) Hfile).
  - unfold strip.
    assert (lstrip (0xFEFF%Z :: text) = 0xFEFF%Z :: text) as -> by reflexivity.
    by rewrite rstrip_cons.
  - by constructor.
  - by left.
Qed.

Lemma X19_witness :
  version {[ "VERSION" := [xef; xbb; xbf; x20; x31; x0a]%byte ]}
  = Ok [0xFEFF; 0x20; 0x31]%Z.
Proof.
  rewrite (X19_utf8_mark_kept {[ "VERSION" := [xef; xbb; xbf; x20; x31; x0a]%byte ]}
             [0x20; 0x31; 0x0a]%Z).
  - by vm_compute.
  - repeat constructor.
  - by vm_compute.
Defined.

(** X20: after the byte-order mark the loader wants whole code units: a
    file with the mark and an odd number of bytes after it raises
    [UnicodeDecodeError]. *)
Theorem X20_utf16_odd_length files rest :
  files !! "VERSION" = Some (codecs.BOM_UTF16_LE ++ rest) →
  Nat.odd (List.length rest) = true →
  version files = Raise UnicodeDecodeError.
Proof.
  intros Hfile Hodd. rewrite (version_read files _ Hfile), startswith_app.
  change (drop 2 (codecs.BOM_UTF16_LE ++ rest)) with rest.
  unfold decode_utf16le.
  destruct (code_units_inv rest) as [->|(units & _ & _ & _ & Hlen)]; [done|].
  apply Nat.odd_spec in Hodd as [m Hm]. lia.
Qed.

Lemma X20_witness :
  version {[ "VERSION" := [xff; xfe; x31; x00; x0a]%byte ]}
  = Raise UnicodeDecodeError.
Proof.
  apply (X20_utf16_odd_length {[ "VERSION" := [xff; xfe; x31; x00; x0a]%byte ]}
           [x31; x00; x0a]%byte); by vm_compute.
Defined.

(** X21: the loader returns the text between the whitespace at the two
    ends of the file, in either encoding: for a text of whitespace, a
    core that neither begins nor ends with whitespace, and whitespace
    again, the version is the core; a file of whitespace only gives the
    empty version. *)
Theorem X21_version_is_core files bs before core after :
  files !! "VERSION" = Some bs →
  Forall (λ c, scalar c = true) (before ++ core ++ after) →
  Forall (λ c, isspace c = true) before →
  Forall (λ c, isspace c = true) after →
  (∀ c, head core = Some c → isspace c = false) →
  (∀ c, last core = Some c → isspace c = false) →
  bs = encode_utf8 (before ++ core ++ after)
  ∨ bs = codecs.BOM_UTF16_LE ++ encode_utf16le (before ++ core ++ after) →
  version files = Ok core.
Proof.
  intros Hfile Hscalar Hbefore Hafter Hhead Hlast Hbs.
  rewrite (version_of_text files bs _ Hfile Hscalar Hbs).
  by rewrite strip_core.
Qed.

Lemma X21_witness :
  version {[ "VERSION" := [x09; x30; x20; x31; x0d; x0a]%byte ]}
  = Ok [0x30; 0x20; 0x31]%Z.
Proof.
  apply (X21_version_is_core {[ "VERSION" := [x09; x30; x20; x31; x0d; x0a]%byte ]}
           [x09; x30; x20; x31; x0d; x0a]%byte
           [0x09]%Z [0x30; 0x20; 0x31]%Z [0x0d; 0x0a]%Z).
  - by vm_compute.
  - repeat constructor.
  - repeat constructor.
  - repeat constructor.
  - by intros c [= <-].
  - by intros c [= <-].
  - left. by vm_compute.
Defined.

(** X22: whitespace around the version in the file never reaches the
    download links.  For a file that holds, in either encoding,
    whitespace, a core that neither begins nor ends with whitespace, and
    whitespace again, [extlinks] has the one role [download_artifact],
    whose URL template is the release address, the core and [/%s],
    and whose caption is [%s]. *)
Theorem X22_download_link files bs before core after :
  files !! "VERSION" = Some bs →
  Forall (λ c, scalar c = true) (before ++ core ++ after) →
  Forall (λ c, isspace c = true) before →
  Forall (λ c, isspace c = true) after →
  (∀ c, head core = Some c → isspace c = false) →
  (∀ c, last core = Some c → isspace c = false) →
  bs = encode_utf8 (before ++ core ++ after)
  ∨ bs = codecs.BOM_UTF16_LE ++ encode_utf16le (before ++ core ++ after) →
  extlinks files =
    Ok {[ "download_artifact" :=
            (code_points "https://github.com/ironplc/ironplc/releases/download/v"
               ++ core ++ code_points "/%s",
             code_points "%s") ]}.
Proof.
  intros Hfile Hscalar Hbefore Hafter Hhead Hlast Hbs. unfold extlinks.
  rewrite (version_of_text files bs _ Hfile Hscalar Hbs), strip_core by done.
  reflexivity.
Qed.

Lemma X22_witness :
  extlinks {[ "VERSION" := [xff; xfe; x30; x00; x2e; x00; x31; x00; x0a; x00]%byte ]}
  = Ok {[ "download_artifact" :=
            (code_points "https://github.com/ironplc/ironplc/releases/download/v0.1/%s",
             code_points "%s") ]}.
Proof.
  apply (X22_download_link
           {[ "VERSION" := [xff; xfe; x30; x00; x2e; x00; x31; x00; x0a; x00]%byte ]}
           [xff; xfe; x30; x00; x2e; x00; x31; x00; x0a; x00]%byte
           [] [0x30; 0x2e; 0x31]%Z [0x0a]%Z).
  - by vm_compute.
  - repeat constructor.
  - constructor.
  - repeat constructor.
  - by intros c [= <-].
  - by intros c [= <-].
  - right. by vm_compute.
Defined.

Lemma encode_utf16le_cons (c : Z) (text : list Z) :
  (c < 0x10000)%Z →
  encode_utf16le (c :: text) = unit_bytes c ++ encode_utf16le text.
Proof.
  intros Hc. unfold encode_utf16le. cbn [fmap list_fmap concat].
  unfold utf16_units at 1. by split_tests.
Qed.

Lemma decode_utf8_utf16le_ascii (text : list Z) :
  Forall (λ c, 0 ≤ c < 128)%Z text →
  decode_utf8 (encode_utf16le text) = Ok (with_nuls text).
Proof.
  induction 1 as [|c text Hc _ IH]; [done|].
  rewrite encode_utf16le_cons by lia. unfold unit_bytes.
  rewrite (Z.mod_small c 256), (Z.div_small c 256) by lia.
  cbn [app decode_utf8]. rewrite !byte_val_of by lia.
  split_tests. by rewrite IH.
Qed.

(** X23: without the byte-order mark UTF-16LE is not recognised.  A
    file that holds ASCII text in UTF-16LE and no mark is read as UTF-8
    without error, and the version has [U+0000] after each character of
    the text. *)
Theorem X23_utf16_without_mark files text :
  Forall (λ c, 0 ≤ c < 128)%Z text →
  files !! "VERSION" = Some (encode_utf16le text) →
  version files = Ok (strip (with_nuls text)).
Proof.
  intros Htext Hfile. rewrite (version_read files _ Hfile).
  assert (startswith (encode_utf16le text) codecs.BOM_UTF16_LE = false) as ->.
  { destruct Htext as [|c text Hc _]; [done|].
    rewrite encode_utf16le_cons by lia. unfold unit_bytes.
    rewrite (Z.mod_small c 256) by lia.
    cbn [app startswith codecs.BOM_UTF16_LE].
    destruct (Byte.eqb (byte_of c) xff) eqn:E; [|done].
    apply Byte.byte_dec_bl in E. apply (f_equal byte_val) in E.
    rewrite byte_val_of in E by lia. vm_compute in E. lia. }
  by rewrite decode_utf8_utf16le_ascii.
Qed.

Lemma X23_witness :
  version {[ "VERSION" := [x30; x00; x2e; x00; x31; x00; x0a; x00]%byte ]}
  = Ok [0x30; 0; 0x2e; 0; 0x31; 0; 0x0a; 0]%Z.
Proof.
  rewrite (X23_utf16_without_mark
             {[ "VERSION" := [x30; x00; x2e; x00; x31; x00; x0a; x00]%byte ]}
             [0x30; 0x2e; 0x31; 0x0a]%Z).
  - by vm_compute.
  - repeat constructor; lia.
  - by vm_compute.
Defined.
